(** * docling-service/app.py: the /process request handler

    A shallow embedding of [process_document] and of the module start-up
    code of [app.py].  The handler is straight-line glue around three
    fallible collaborators (the uploaded stream, the [tempfile]/[os]
    file-system calls and the docling converter), so the embedding is a
    state-and-exception monad over the process state, with the local
    variable [temp_file_path] kept in an explicit frame because the
    [finally] clause reads it on every exit path. *)

From Stdlib Require Import String Ascii List ZArith Lia Bool.
From Stdlib.Init Require Import Byte.
From stdpp Require Import base option gmap strings list pretty.

Open Scope string_scope.

(** ** Python exceptions *)

(** The part of the built-in class hierarchy the handler can tell apart:
    it catches [Exception] (line 75) and [OSError] (line 88).  A
    third-party exception is represented by its nearest built-in base. *)
Inductive exn_class :=
  | BaseException | KeyboardInterrupt | SystemExit
  | Exception | MemoryError | ValueError | RuntimeError | AttributeError
  | NameError | UnboundLocalError
  | OSError | FileExistsError | FileNotFoundError | PermissionError.

#[global] Instance exn_class_eq_dec : EqDecision exn_class.
Proof. solve_decision. Defined.

(** The direct base class. *)
Definition base_of (c : exn_class) : option exn_class :=
  match c with
  | BaseException => None
  | KeyboardInterrupt | SystemExit | Exception => Some BaseException
  | MemoryError | ValueError | RuntimeError | AttributeError
  | NameError | OSError => Some Exception
  | UnboundLocalError => Some NameError
  | FileExistsError | FileNotFoundError | PermissionError => Some OSError
  end.

Fixpoint issubclass_upto (depth : nat) (c d : exn_class) : bool :=
  bool_decide (c = d) ||
  match depth with
  | O => false
  | S depth' =>
      match base_of c with
      | Some b => issubclass_upto depth' b d
      | None => false
      end
  end.

(** The hierarchy above is three levels deep. *)
Definition issubclass (c d : exn_class) : bool := issubclass_upto 3 c d.

(** A raised exception: its class and the text [str(e)] yields. *)
Record exn := { cls : exn_class; msg : string }.

#[global] Instance exn_eq_dec : EqDecision exn.
Proof. solve_decision. Defined.

Definition isinstance (e : exn) (c : exn_class) : bool := issubclass (cls e) c.

(** ** Outcomes and the handler monad *)

Inductive outcome (A : Type) :=
  | Return (a : A)
  | Raise (e : exn).
Arguments Return {A} a.
Arguments Raise {A} e.

(** A local variable of a Python frame: not yet assigned, or bound. *)
Inductive local (A : Type) :=
  | Unbound
  | Bound (a : A).
Arguments Unbound {A}.
Arguments Bound {A} a.

(** ** The collaborator (docling) *)

Record Document := { export_to_markdown : outcome string }.
Record ConversionResult := { document : Document }.

(** [convert] is handed a path and looks at the disk. *)
Record DocumentConverter :=
  { convert : string → gmap string (list byte) → outcome ConversionResult }.

(** ** Process state *)

Inductive LogLine :=
  | Stdout (line : string)
  | Traceback (e : exn).

(** What lies outside the Python program: the disk, the directory
    [tempfile.gettempdir()] answers, the candidate names the random name
    sequence of [tempfile] is going to yield, and the output stream. *)
Record World := {
  fs : gmap string (list byte);
  tmpdir : string;
  names : list string;
  log : list LogLine
}.

(** The module global [converter] (lines 12-20) and the world. *)
Record State := {
  converter : option DocumentConverter;
  world : World
}.

(** The one local of [process_document] that is read after the [try]
    block has been left. *)
Record Frame := { temp_file_path : local (option string) }.

Definition M (A : Type) : Type := Frame * State → outcome A * (Frame * State).

Definition ret {A} (a : A) : M A := λ c, (Return a, c).
Definition raise {A} (e : exn) : M A := λ c, (Raise e, c).
Definition bind {A B} (m : M A) (k : A → M B) : M B :=
  λ c, match m c with
       | (Return a, c') => k a c'
       | (Raise e, c') => (Raise e, c')
       end.

#[global] Instance M_ret : MRet M := @ret.
#[global] Instance M_bind : MBind M := λ A B k m, bind m k.

(** [try: body  except C as e: handler e] *)
Definition try_except {A} (body : M A) (C : exn_class) (handler : exn → M A) : M A :=
  λ c, match body c with
       | (Return a, c') => (Return a, c')
       | (Raise e, c') => if isinstance e C then handler e c' else (Raise e, c')
       end.

(** [try: body  finally: fin].  The [finally] suite runs on every exit of
    [body]; an exception it raises replaces the pending return value or
    exception. *)
Definition try_finally {A} (body : M A) (fin : M unit) : M A :=
  λ c, match body c with
       | (r, c') =>
           match fin c' with
           | (Return _, c'') => (r, c'')
           | (Raise e, c'') => (Raise e, c'')
           end
       end.

(** Lifting a value a collaborator returned or an exception it raised. *)
Definition lift {A} (o : outcome A) : M A := λ c, (o, c).

(** *** State access *)

Definition set_fs (f : gmap string (list byte)) (w : World) : World :=
  {| fs := f; tmpdir := tmpdir w; names := names w; log := log w |}.
Definition set_names (n : list string) (w : World) : World :=
  {| fs := fs w; tmpdir := tmpdir w; names := n; log := log w |}.
Definition add_log (l : LogLine) (w : World) : World :=
  {| fs := fs w; tmpdir := tmpdir w; names := names w; log := log w ++ [l] |}.

Definition get_world : M World := λ c, (Return (world (snd c)), c).
Definition modify_world (f : World → World) : M unit :=
  λ c, (Return tt,
        (fst c, {| converter := converter (snd c); world := f (world (snd c)) |})).

(** Reading the module global [converter]. *)
Definition global_converter : M (option DocumentConverter) :=
  λ c, (Return (converter (snd c)), c).

(** Assigning and reading the local [temp_file_path]. *)
Definition assign_temp_file_path (v : option string) : M unit :=
  λ c, (Return tt, ({| temp_file_path := Bound v |}, snd c)).

Definition unbound_temp_file_path : exn :=
  {| cls := UnboundLocalError;
     msg := "cannot access local variable 'temp_file_path' where it is not associated with a value" |}.

Definition load_temp_file_path : M (option string) :=
  λ c, match temp_file_path (fst c) with
       | Bound v => (Return v, c)
       | Unbound => (Raise unbound_temp_file_path, c)
       end.

(** [print] and [traceback.print_exc]. *)
Definition print (line : string) : M unit := modify_world (add_log (Stdout line)).
Definition print_exc (e : exn) : M unit := modify_world (add_log (Traceback e)).

(** ** [os.path] (posixpath) *)

(** [s.rfind(ch)] for a one-character [ch]: the highest index, or -1. *)
Fixpoint rfind_from (ch : ascii) (s : string) (i last : Z) : Z :=
  match s with
  | EmptyString => last
  | String a s' => rfind_from ch s' (i + 1) (if Ascii.eqb a ch then i else last)
  end.

Definition rfind (ch : ascii) (s : string) : Z := rfind_from ch s 0 (-1).

(** [p[:i]] and [p[i:]]. *)
Definition slice_to (i : nat) (p : string) : string := substring 0 i p.
Definition slice_from (i : nat) (p : string) : string :=
  substring i (String.length p - i) p.

Definition char_is (ch : ascii) (i : nat) (p : string) : bool :=
  match get i p with
  | Some a => Ascii.eqb a ch
  | None => false
  end.

(** The loop of [genericpath._splitext] that skips leading dots: the
    first character of the file name that is not a dot makes the split
    happen at [dotIndex]. *)
Fixpoint splitext_scan (steps : nat) (p : string) (filenameIndex dotIndex : nat)
  : string * string :=
  match steps with
  | O => (p, "")
  | S steps' =>
      if (filenameIndex <? dotIndex)%nat then
        if negb (char_is "." filenameIndex p)
        then (slice_to dotIndex p, slice_from dotIndex p)
        else splitext_scan steps' p (S filenameIndex) dotIndex
      else (p, "")
  end.

(** [os.path.splitext] *)
Definition splitext (p : string) : string * string :=
  let sepIndex := rfind "/" p in
  let dotIndex := rfind "." p in
  if (sepIndex <? dotIndex)%Z
  then splitext_scan (String.length p) p (Z.to_nat (sepIndex + 1)) (Z.to_nat dotIndex)
  else (p, "").

Definition startswith_sep (b : string) : bool :=
  match b with
  | String a _ => Ascii.eqb a "/"
  | EmptyString => false
  end.

Fixpoint endswith_sep (a : string) : bool :=
  match a with
  | EmptyString => false
  | String ch EmptyString => Ascii.eqb ch "/"
  | String _ a' => endswith_sep a'
  end.

(** [os.path.join(a, b)] *)
Definition path_join (a b : string) : string :=
  if startswith_sep b then b
  else if String.eqb a "" || endswith_sep a then a ++ b
  else a ++ "/" ++ b.

(** [os.path.exists] *)
Definition os_path_exists (path : string) : M bool :=
  w ← get_world;
  mret (match fs w !! path with Some _ => true | None => false end).

(** ** What the environment does to one request *)

(** The system calls behind the staging step can fail; which of them do,
    during one request, is the environment's choice.
    - [open_fault]: [os.open] inside [NamedTemporaryFile] fails for a
      reason other than the name being taken;
    - [write_fault]: [temp_file.write] raises after that many bytes have
      reached the file;
    - [close_fault]: closing the file on leaving the [with] block raises;
    - [remove_fault]: [os.remove] fails; it raises [OSError] and nothing
      else, with the given text. *)
Record Env := {
  open_fault : option exn;
  write_fault : option (nat * exn);
  close_fault : option exn;
  remove_fault : option string
}.

Definition no_faults : Env :=
  {| open_fault := None; write_fault := None; close_fault := None;
     remove_fault := None |}.

(** ** [tempfile] *)

(** [tempfile.TMP_MAX] is [os.TMP_MAX] where the platform has one; on
    Linux that is 238328, the number of three-character names over 62
    characters. *)
Definition TMP_MAX : nat := 62 * 62 * 62.

(** [tempfile._mkstemp_inner]: draw candidate names until one is not the
    name of an existing file, at most [attempts] times.  Returns the
    path created and the candidates not drawn yet. *)
Fixpoint mkstemp_inner (attempts : nat) (disk : gmap string (list byte))
    (dir pre suf : string) (candidates : list string) : option string * list string :=
  match attempts, candidates with
  | S attempts', name :: rest =>
      let file := path_join dir (pre ++ name ++ suf) in
      match disk !! file with
      | Some _ => mkstemp_inner attempts' disk dir pre suf rest
      | None => (Some file, rest)
      end
  | _, _ => (None, candidates)
  end.

(** [tempfile.NamedTemporaryFile(delete=False, suffix=suffix)]: the new,
    empty file is on disk when the call returns; the value is the file's
    [name]. *)
Definition NamedTemporaryFile (env : Env) (suffix : string) : M string :=
  match open_fault env with
  | Some e =>
      (* the name is drawn before [os.open] is called *)
      modify_world (λ w, set_names (tail (names w)) w);;
      raise e
  | None =>
      w ← get_world;
      match mkstemp_inner TMP_MAX (fs w) (tmpdir w) "tmp" suffix (names w) with
      | (Some file, rest) =>
          modify_world (λ w, set_names rest (set_fs (<[file := []]> (fs w)) w));;
          mret file
      | (None, rest) =>
          modify_world (set_names rest);;
          raise {| cls := FileExistsError;
                   msg := "[Errno 17] No usable temporary file name found" |}
      end
  end.

Definition contents (path : string) (w : World) : list byte :=
  default [] (fs w !! path).

(** [temp_file.write(data)] *)
Definition file_write (env : Env) (path : string) (data : list byte) : M unit :=
  match write_fault env with
  | Some (n, e) =>
      modify_world (λ w, set_fs (<[path := (contents path w ++ take n data)%list]> (fs w)) w);;
      raise e
  | None =>
      modify_world (λ w, set_fs (<[path := (contents path w ++ data)%list]> (fs w)) w)
  end.

(** [temp_file.close()], called by [__exit__]. *)
Definition file_close (env : Env) : M unit :=
  match close_fault env with
  | Some e => raise e
  | None => mret tt
  end.

(** [with opener as f: body f] for a file object. *)
Definition with_file {A} (env : Env) (opener : M string) (body : string → M A) : M A :=
  f ← opener; try_finally (body f) (file_close env).

(** [os.remove] *)
Definition os_remove (env : Env) (path : string) : M unit :=
  match remove_fault env with
  | Some text => raise {| cls := OSError; msg := text |}
  | None =>
      w ← get_world;
      match fs w !! path with
      | Some _ => modify_world (λ w, set_fs (delete path (fs w)) w)
      | None =>
          raise {| cls := FileNotFoundError;
                   msg := "[Errno 2] No such file or directory: '" ++ path ++ "'" |}
      end
  end.

(** ** Requests and responses *)

(** A werkzeug [FileStorage]: the client's file name and what reading
    the stream to its end gives. *)
Record FileStorage := { filename : string; read : outcome (list byte) }.

(** [request.files] is a multi-dict, built from the body the first time
    it is evaluated (line 35) and kept from then on.  Building it can
    raise: werkzeug raises [RequestEntityTooLarge] for a body with too
    many parts, or [ClientDisconnected] when the body ends early; these
    derive from [Exception].  [request_files] is what the first
    evaluation gives. *)
Record Request := { request_files : outcome (list (string * FileStorage)) }.

(** The file fields the handler gets to see: those of the multi-dict,
    none when building it raises.  Indexing a multi-dict gives the first
    value of the key. *)
Definition files (req : Request) : list (string * FileStorage) :=
  match request_files req with
  | Return d => d
  | Raise _ => []
  end.

Fixpoint multidict_get (key : string) (d : list (string * FileStorage))
  : option FileStorage :=
  match d with
  | [] => None
  | (k, v) :: d' => if String.eqb k key then Some v else multidict_get key d'
  end.

(** A body is a JSON object or a text.  [Json obj] stands for the
    object, given by the pairs of the dict passed to [jsonify]; the
    order in which the serialised text lists the keys (Flask sorts them)
    is no part of it. *)
Inductive Body :=
  | Json (obj : list (string * string))
  | Text (text : string).

Record Response := { status : nat; mimetype : string; body : Body }.

Definition jsonify (obj : list (string * string)) : Response :=
  {| status := 200; mimetype := "application/json"; body := Json obj |}.

(** A view's return value [(response, code)]. *)
Definition with_status (r : Response) (code : nat) : Response :=
  {| status := code; mimetype := mimetype r; body := body r |}.

(** [Response(text, mimetype=...)] *)
Definition text_response (text mime : string) : Response :=
  {| status := 200; mimetype := mime; body := Text text |}.

(** ** The handler *)

(** The value of a variable when it is truthy: a non-empty [str]. *)
Definition truthy_str (v : option string) : option string :=
  match v with
  | Some EmptyString => None
  | Some p => Some p
  | None => None
  end.

Definition unavailable_response : Response :=
  with_status (jsonify [("error", "Docling converter not initialized during startup")]) 503.
Definition no_file_part_response : Response :=
  with_status (jsonify [("error", "No file part in the request")]) 400.
Definition no_selected_file_response : Response :=
  with_status (jsonify [("error", "No selected file")]) 400.
Definition path_not_set_response : Response :=
  with_status (jsonify [("error", "Internal error: Temp file path not set.")]) 500.
Definition failure_response (e : exn) : Response :=
  with_status
    (jsonify [("error", "Failed to process document with docling"); ("details", msg e)])
    500.
Definition markdown_response (markdown_output : string) : Response :=
  text_response markdown_output "text/markdown".

(** Lines 50-51: read the upload into memory. *)
Definition read_upload (file : FileStorage) (original_filename : string)
  : M (list byte) :=
  file_bytes ← lift (read file);
  print ("Received file: " ++ original_filename ++ ", size: "
         ++ pretty (length file_bytes) ++ " bytes");;
  mret file_bytes.

(** Lines 54-58: stage the bytes in a temporary file. *)
Definition stage (env : Env) (original_filename : string) (file_bytes : list byte)
  : M unit :=
  assign_temp_file_path None;;
  with_file env (NamedTemporaryFile env (snd (splitext original_filename)))
    (λ temp_file,
       file_write env temp_file file_bytes;;
       assign_temp_file_path (Some temp_file);;
       print ("Original file temporarily saved to: " ++ temp_file)).

(** [len] of a [str]: the number of characters.  Strings are kept as
    UTF-8 here, so the bytes 10xxxxxx that continue a character are not
    counted. *)
Definition continuation_byte (a : ascii) : bool :=
  (128 <=? nat_of_ascii a)%nat && (nat_of_ascii a <? 192)%nat.

Fixpoint len (s : string) : nat :=
  match s with
  | EmptyString => 0
  | String a s' => (if continuation_byte a then 0 else 1) + len s'
  end.

(** Lines 64-73: convert the staged file and export it. *)
Definition convert_staged (path : string) : M Response :=
  print ("Processing full PDF with docling: " ++ path);;
  conv ← global_converter;
  w ← get_world;
  result ← match conv with
           | Some c => lift (convert c path (fs w))
           | None => raise {| cls := AttributeError;
                              msg := "'NoneType' object has no attribute 'convert'" |}
           end;
  print "Docling conversion successful (processed full document).";;
  markdown_output ← lift (export_to_markdown (document result));
  print ("Successfully exported full document to Markdown ("
         ++ pretty (len markdown_output) ++ " chars). Returning response.");;
  mret (markdown_response markdown_output).

(** Lines 49-73, the body of the [try] statement. *)
Definition try_suite (env : Env) (file : FileStorage) (original_filename : string)
  : M Response :=
  file_bytes ← read_upload file original_filename;
  stage env original_filename file_bytes;;
  v ← load_temp_file_path;
  match truthy_str v return M Response with
  | None => mret path_not_set_response
  | Some path => convert_staged path
  end.

(** Lines 75-80. *)
Definition except_suite (original_filename : string) (e : exn) : M Response :=
  print ("Error during docling processing for " ++ original_filename ++ ": " ++ msg e);;
  print_exc e;;
  mret (failure_response e).

(** Lines 82-89. *)
Definition finally_suite (env : Env) : M unit :=
  v ← load_temp_file_path;
  match truthy_str v return M unit with
  | None => mret tt
  | Some path =>
      os_path_exists path ≫= λ present : bool,
      if present return M unit then
        try_except
          (os_remove env path;;
           print ("Removed temporary file: " ++ path))
          OSError
          (λ e, print ("Error removing temporary file " ++ path ++ ": " ++ msg e))
      else mret tt
  end.

(** The body of [process_document], lines 30-89, in the frame it is
    called in. *)
Definition handler (req : Request) (env : Env) : M Response :=
  conv ← global_converter;
  match conv return M Response with
  | None =>
      print "Error: Docling converter was not initialized.";;
      mret unavailable_response
  | Some _ =>
      (* line 35 evaluates [request.files]; line 39 indexes the same
         multi-dict *)
      lift (request_files req) ≫= λ d : list (string * FileStorage),
      match multidict_get "file" d return M Response with
      | None =>
          print "Error: No 'file' part in the request.";;
          mret no_file_part_response
      | Some file =>
          if String.eqb (filename file) "" return M Response then
            print "Error: No file selected.";;
            mret no_selected_file_response
          else
            let original_filename := filename file in
            try_finally
              (try_except (try_suite env file original_filename)
                 Exception
                 (except_suite original_filename))
              (finally_suite env)
      end
  end.

(** On entry no local is bound (line 45 binds
    [single_page_temp_file_path], which nothing reads). *)
Definition fresh_frame : Frame := {| temp_file_path := Unbound |}.

(** One call of the view function: what it returns or raises, and the
    state it leaves. *)
Definition process_document (req : Request) (env : Env) (s : State)
  : outcome Response * State :=
  let '(r, (_, s')) := handler req env (fresh_frame, s) in (r, s').

(** ** Start-up and serving *)

(** Lines 12-20, run once when the module is loaded;
    [constructed] is what [DocumentConverter()] does. *)
Definition startup (constructed : outcome DocumentConverter) (w : World)
  : outcome State :=
  match constructed with
  | Return c =>
      Return {| converter := Some c;
                world := add_log (Stdout "Docling DocumentConverter initialized successfully.") w |}
  | Raise e =>
      if isinstance e Exception then
        Return {| converter := None;
                  world := add_log (Traceback e)
                             (add_log (Stdout ("FATAL: Error initializing DocumentConverter: " ++ msg e)) w) |}
      else Raise e
  end.

(** Requests served one after the other. *)
Fixpoint serve (reqs : list (Request * Env)) (s : State)
  : list (outcome Response) * State :=
  match reqs with
  | [] => ([], s)
  | (req, env) :: reqs' =>
      let '(r, s') := process_document req env s in
      let '(rs, s'') := serve reqs' s' in
      (r :: rs, s'')
  end.

(** * Vocabulary of the properties *)

(** [preserves P m]: running [m] from a configuration in [P] ends in
    [P], whether [m] returns or raises. *)
Definition preserves {A} (P : Frame * State → Prop) (m : M A) : Prop :=
  ∀ c, P c → P (snd (m c)).

(** Properties of a configuration that do not look at the world are kept
    by everything that only touches the world. *)
Definition world_blind (P : Frame * State → Prop) : Prop :=
  ∀ fr s w, P (fr, s) → P (fr, {| converter := converter s; world := w |}).

(** The module global holds [k]. *)
Definition converter_is (k : option DocumentConverter) (c : Frame * State) : Prop :=
  converter (snd c) = k.

(** The local [temp_file_path] has been assigned. *)
Definition path_bound (c : Frame * State) : Prop :=
  temp_file_path (fst c) ≠ Unbound.

(** The path the frame has recorded, if it holds a non-empty one. *)
Definition recorded_path (fr : Frame) : option string :=
  match temp_file_path fr with
  | Bound v => truthy_str v
  | Unbound => None
  end.

(** The configuration in which the [try] statement is entered, and the
    one in which staging starts once [data] has been read. *)
Definition on_entry (s : State) : Frame * State := (fresh_frame, s).

Definition after_read (file : FileStorage) (s : State) : Frame * State :=
  snd (read_upload file (filename file) (on_entry s)).

(** What the [finally] clause leaves of the disk. *)
Definition cleanup_disk (env : Env) (fr : Frame) (disk : gmap string (list byte))
  : gmap string (list byte) :=
  match recorded_path fr, remove_fault env with
  | Some path, None => delete path disk
  | _, _ => disk
  end.

(** What the client gets when the [try] suite ends in [r]. *)
Definition caught (r : outcome Response) : outcome Response :=
  match r with
  | Return a => Return a
  | Raise e => if isinstance e Exception then Return (failure_response e) else Raise e
  end.

(** An exception [e] is raised while the bytes are staged, or by the
    collaborator's [convert] or [export_to_markdown] on the staged file. *)
Inductive processing_raises (env : Env) (conv : DocumentConverter)
    (file : FileStorage) (data : list byte) (s : State) (e : exn) : Prop :=
  | staging_raises c2 :
      stage env (filename file) data (after_read file s) = (Raise e, c2) →
      processing_raises env conv file data s e
  | convert_raises c2 path :
      stage env (filename file) data (after_read file s) = (Return tt, c2) →
      recorded_path (fst c2) = Some path →
      convert conv path (fs (world (snd c2))) = Raise e →
      processing_raises env conv file data s e
  | export_raises c2 path result :
      stage env (filename file) data (after_read file s) = (Return tt, c2) →
      recorded_path (fst c2) = Some path →
      convert conv path (fs (world (snd c2))) = Return result →
      export_to_markdown (document result) = Raise e →
      processing_raises env conv file data s e.

(** Two worlds that differ at most in the log. *)
Definition same_but_log (w w' : World) : Prop :=
  fs w' = fs w ∧ names w' = names w ∧ tmpdir w' = tmpdir w.

(** What the collaborator makes of the file staged at [path]: the
    Markdown it exports, or the exception [convert] or
    [export_to_markdown] raises. *)
Definition collaborator_outcome (conv : DocumentConverter) (path : string)
    (disk : gmap string (list byte)) : outcome string :=
  match convert conv path disk with
  | Return result => export_to_markdown (document result)
  | Raise e => Raise e
  end.

(** The directory part [os.path.join] puts in front of a relative name. *)
Definition dir_prefix (dir : string) : string :=
  if String.eqb dir "" || endswith_sep dir then dir else dir ++ "/".

(** ** Sample data *)

Module Sample.

Definition enospc : exn :=
  {| cls := OSError; msg := "[Errno 28] No space left on device" |}.
Definition eio : exn :=
  {| cls := OSError; msg := "[Errno 5] Input/output error" |}.
Definition conversion_error : exn :=
  {| cls := RuntimeError; msg := "File format not allowed: report.pdf" |}.
Definition init_error : exn :=
  {| cls := RuntimeError; msg := "model weights not found" |}.

(** A converter that turns every file it finds into the same document,
    whatever the path. *)
Definition doc : Document := {| export_to_markdown := Return "# Title" |}.
Definition conv : DocumentConverter :=
  {| convert := λ path disk,
       match disk !! path with
       | Some _ => Return {| document := doc |}
       | None => Raise {| cls := FileNotFoundError; msg := path |}
       end |}.

(** A converter that rejects everything. *)
Definition failing_conv : DocumentConverter :=
  {| convert := λ _ _, Raise conversion_error |}.

Definition w0 : World :=
  {| fs := ∅; tmpdir := "/tmp"; names := ["k3j_x0aq"; "zz81mwp4"]; log := [] |}.
Definition s0 : State := {| converter := Some conv; world := w0 |}.
Definition s_failing : State := {| converter := Some failing_conv; world := w0 |}.

Definition pdf_bytes : list byte := [x25; x50; x44; x46]%byte.
Definition upload : FileStorage :=
  {| filename := "report.pdf"; read := Return pdf_bytes |}.
Definition upload_docx : FileStorage :=
  {| filename := "notes.docx"; read := Return pdf_bytes |}.
Definition unreadable_upload : FileStorage :=
  {| filename := "report.pdf"; read := Raise eio |}.
Definition unnamed_upload : FileStorage :=
  {| filename := ""; read := Return [] |}.

Definition req : Request := {| request_files := Return [("file", upload)] |}.
Definition req_docx : Request := {| request_files := Return [("file", upload_docx)] |}.
Definition req_unreadable : Request := {| request_files := Return [("file", unreadable_upload)] |}.
Definition req_unnamed : Request := {| request_files := Return [("file", unnamed_upload)] |}.
Definition req_empty : Request := {| request_files := Return [] |}.

(** The disk fills up after the first two bytes have been written. *)
Definition disk_full : Env :=
  {| open_fault := None; write_fault := Some (2, enospc);
     close_fault := None; remove_fault := None |}.

End Sample.

(** ** Vocabulary of the further properties *)

(** [ch in s] *)
Fixpoint contains_char (ch : ascii) (s : string) : bool :=
  match s with
  | EmptyString => false
  | String a s' => Ascii.eqb a ch || contains_char ch s'
  end.

(** The ways a call of the handler can end, with what decides each. *)
Inductive ends_as (req : Request) (s : State) : outcome Response → Prop :=
  | ends_unavailable :
      converter s = None →
      ends_as req s (Return unavailable_response)
  | ends_unparsed conv e :
      converter s = Some conv →
      request_files req = Raise e →
      ends_as req s (Raise e)
  | ends_no_file_part conv d :
      converter s = Some conv →
      request_files req = Return d →
      multidict_get "file" d = None →
      ends_as req s (Return no_file_part_response)
  | ends_no_selected_file conv file :
      converter s = Some conv →
      multidict_get "file" (files req) = Some file →
      filename file = "" →
      ends_as req s (Return no_selected_file_response)
  | ends_read_failed conv file e :
      converter s = Some conv →
      multidict_get "file" (files req) = Some file →
      filename file ≠ "" →
      read file = Raise e →
      ends_as req s (Raise unbound_temp_file_path)
  | ends_failed conv file data e :
      converter s = Some conv →
      multidict_get "file" (files req) = Some file →
      filename file ≠ "" →
      read file = Return data →
      isinstance e Exception = true →
      ends_as req s (Return (failure_response e))
  | ends_interrupted conv file data e :
      converter s = Some conv →
      multidict_get "file" (files req) = Some file →
      filename file ≠ "" →
      read file = Return data →
      isinstance e Exception = false →
      ends_as req s (Raise e)
  | ends_converted conv file data markdown_output :
      converter s = Some conv →
      multidict_get "file" (files req) = Some file →
      filename file ≠ "" →
      read file = Return data →
      ends_as req s (Return (markdown_response markdown_output)).

(** Two environments that treat the staging calls alike; they may differ
    in what [os.remove] does. *)
Definition same_staging_faults (env env' : Env) : Prop :=
  open_fault env = open_fault env' ∧
  write_fault env = write_fault env' ∧
  close_fault env = close_fault env'.

(** [os.remove] fails with [text] in an otherwise quiet environment. *)
Definition removal_fails (text : string) : Env :=
  {| open_fault := None; write_fault := None; close_fault := None;
     remove_fault := Some text |}.

(** A disk on which somebody else's file lies in the temp directory. *)
Module SampleDisk.

Definition kept : list byte := [x6b; x65; x65; x70]%byte.
Definition w_busy : World :=
  {| fs := {[ "/tmp/keep.txt" := kept ]}; tmpdir := "/tmp";
     names := ["k3j_x0aq"; "zz81mwp4"]; log := [] |}.
Definition s_busy : State := {| converter := Some Sample.conv; world := w_busy |}.

End SampleDisk.


(** A body werkzeug refuses to parse, and a name generator that yields
    the same candidate twice. *)
Module SampleEdge.

Definition too_large : exn :=
  {| cls := Exception;
     msg := "413 Request Entity Too Large: The data value transmitted exceeds the capacity limit." |}.
Definition req_oversized : Request := {| request_files := Raise too_large |}.

Definition w_repeat : World :=
  {| fs := ∅; tmpdir := "/tmp"; names := ["k3j_x0aq"; "k3j_x0aq"]; log := [] |}.
Definition s_repeat : State := {| converter := Some Sample.conv; world := w_repeat |}.

End SampleEdge.

(** [obj.get(key)] on the pairs of a JSON object. *)
Fixpoint json_get (key : string) (obj : list (string * string)) : option string :=
  match obj with
  | [] => None
  | (k, v) :: obj' => if String.eqb k key then Some v else json_get key obj'
  end.

(** * Properties *)

(** ** The model at work *)

Example splitext_pdf : splitext "report.pdf" = ("report", ".pdf").
Proof. reflexivity. Qed.

Example splitext_last_dot_only : splitext "a/..x.tar.gz" = ("a/..x.tar", ".gz").
Proof. reflexivity. Qed.

Example splitext_leading_dot : splitext ".bashrc" = (".bashrc", "").
Proof. reflexivity. Qed.

Example splitext_dot_in_directory : splitext "a.b/c" = ("a.b/c", "").
Proof. reflexivity. Qed.

Example path_join_tmp : path_join "/tmp" "tmpk3j_x0aq.pdf" = "/tmp/tmpk3j_x0aq.pdf".
Proof. reflexivity. Qed.

Example issubclass_FileNotFoundError :
  issubclass FileNotFoundError OSError = true ∧
  issubclass UnboundLocalError Exception = true ∧
  issubclass KeyboardInterrupt Exception = false.
Proof. repeat split. Qed.

(** A request that goes through: the response, what was printed, and
    the disk afterwards. *)
Example successful_run :
  process_document Sample.req no_faults Sample.s0
  = (Return (markdown_response "# Title"),
     {| converter := Some Sample.conv;
        world :=
          {| fs := ∅; tmpdir := "/tmp"; names := ["zz81mwp4"];
             log :=
               [Stdout "Received file: report.pdf, size: 4 bytes";
                Stdout "Original file temporarily saved to: /tmp/tmpk3j_x0aq.pdf";
                Stdout "Processing full PDF with docling: /tmp/tmpk3j_x0aq.pdf";
                Stdout "Docling conversion successful (processed full document).";
                Stdout "Successfully exported full document to Markdown (7 chars). Returning response.";
                Stdout "Removed temporary file: /tmp/tmpk3j_x0aq.pdf"] |} |}).
Proof. vm_compute. reflexivity. Qed.

(** The collaborator rejects the file: 500, and the staged file is gone. *)
Example rejected_run :
  fst (process_document Sample.req no_faults Sample.s_failing)
  = Return (failure_response Sample.conversion_error) ∧
  fs (world (snd (process_document Sample.req no_faults Sample.s_failing))) = ∅.
Proof. split; vm_compute; reflexivity. Qed.

(** A signal that is no [Exception] is not caught, but the staged file
    is still removed. *)
Example interrupted_run :
  let interrupted :=
    {| converter := Some {| convert := λ _ _, Raise {| cls := KeyboardInterrupt; msg := "" |} |};
       world := Sample.w0 |} in
  fst (process_document Sample.req no_faults interrupted)
  = Raise {| cls := KeyboardInterrupt; msg := "" |} ∧
  fs (world (snd (process_document Sample.req no_faults interrupted))) = ∅.
Proof. split; vm_compute; reflexivity. Qed.

(** [os.remove] fails: the failure is logged and the response stands. *)
Example failed_removal_run :
  let env := {| open_fault := None; write_fault := None; close_fault := None;
                remove_fault := Some "[Errno 13] Permission denied" |} in
  fst (process_document Sample.req env Sample.s0)
  = Return (markdown_response "# Title") ∧
  last (log (world (snd (process_document Sample.req env Sample.s0))))
  = Some (Stdout "Error removing temporary file /tmp/tmpk3j_x0aq.pdf: [Errno 13] Permission denied").
Proof. split; vm_compute; reflexivity. Qed.

(** ** Invariants of monadic code *)

Section Preservation.
Context (P : Frame * State → Prop).

Lemma preserves_ret {A} (a : A) : preserves P (mret a).
Proof. intros c Hc. exact Hc. Qed.

Lemma preserves_raise {A} (e : exn) : preserves P (@raise A e).
Proof. intros c Hc. exact Hc. Qed.

Lemma preserves_lift {A} (o : outcome A) : preserves P (lift o).
Proof. intros c Hc. exact Hc. Qed.

Lemma preserves_bind {A B} (m : M A) (k : A → M B) :
  preserves P m → (∀ a, preserves P (k a)) → preserves P (m ≫= k).
Proof.
  intros Hm Hk c Hc. specialize (Hm c Hc).
  unfold mbind, M_bind, bind. destruct (m c) as [[a|e] c']; simpl in *.
  - now apply Hk.
  - exact Hm.
Qed.

Lemma preserves_try_except {A} (body : M A) C (handler : exn → M A) :
  preserves P body → (∀ e, preserves P (handler e)) →
  preserves P (try_except body C handler).
Proof.
  intros Hb Hh c Hc. specialize (Hb c Hc).
  unfold try_except. destruct (body c) as [[a|e] c']; simpl in *.
  - exact Hb.
  - destruct (isinstance e C); [now apply Hh | exact Hb].
Qed.

Lemma preserves_try_finally {A} (body : M A) (fin : M unit) :
  preserves P body → preserves P fin → preserves P (try_finally body fin).
Proof.
  intros Hb Hf c Hc. specialize (Hb c Hc).
  unfold try_finally. destruct (body c) as [r c']; simpl in *.
  specialize (Hf c' Hb). destruct (fin c') as [[[]|e] c'']; exact Hf.
Qed.

Lemma preserves_with_file {A} env (opener : M string) (body : string → M A) :
  preserves P opener → (∀ f, preserves P (body f)) → preserves P (file_close env) →
  preserves P (with_file env opener body).
Proof.
  intros Ho Hb Hc. unfold with_file.
  apply preserves_bind; [exact Ho | intros f].
  apply preserves_try_finally; [apply Hb | exact Hc].
Qed.

Lemma preserves_get_world : preserves P get_world.
Proof. intros c Hc. exact Hc. Qed.

Lemma preserves_global_converter : preserves P global_converter.
Proof. intros c Hc. exact Hc. Qed.

Lemma preserves_load : preserves P load_temp_file_path.
Proof.
  intros c Hc. unfold load_temp_file_path.
  destruct (temp_file_path (fst c)); exact Hc.
Qed.

Lemma preserves_file_close env : preserves P (file_close env).
Proof.
  unfold file_close. destruct (close_fault env);
    [apply preserves_raise | apply preserves_ret].
Qed.
End Preservation.

Create HintDb preserves discriminated.
#[global] Hint Resolve preserves_ret preserves_raise preserves_lift
  preserves_get_world preserves_global_converter preserves_load
  preserves_file_close : preserves.

(** Goals [preserves P m] are taken apart along the structure of [m]. *)
Ltac preserves_step :=
  first
    [ apply preserves_bind; [| intros ?]
    | apply preserves_try_finally
    | apply preserves_try_except; [| intros ?]
    | apply preserves_with_file; [| intros ? |]
    | solve [auto with preserves]
    | match goal with
      | |- preserves _ (match ?x with _ => _ end) => destruct x
      end ].
Ltac preserves_auto := repeat preserves_step.

Section WorldBlind.
Context (P : Frame * State → Prop) (HP : world_blind P).

Lemma preserves_modify_world f : preserves P (modify_world f).
Proof. intros [fr s] Hc. apply HP, Hc. Qed.

Lemma preserves_print line : preserves P (print line).
Proof. apply preserves_modify_world. Qed.

Lemma preserves_print_exc e : preserves P (print_exc e).
Proof. apply preserves_modify_world. Qed.

Hint Resolve preserves_modify_world preserves_print preserves_print_exc : preserves.

Lemma preserves_os_path_exists path : preserves P (os_path_exists path).
Proof. unfold os_path_exists. preserves_auto. Qed.

Lemma preserves_NamedTemporaryFile env suffix :
  preserves P (NamedTemporaryFile env suffix).
Proof. unfold NamedTemporaryFile. preserves_auto. Qed.

Lemma preserves_file_write env path data : preserves P (file_write env path data).
Proof. unfold file_write. preserves_auto. Qed.

Lemma preserves_os_remove env path : preserves P (os_remove env path).
Proof. unfold os_remove. preserves_auto. Qed.

Hint Resolve preserves_os_path_exists preserves_NamedTemporaryFile
  preserves_file_write preserves_os_remove : preserves.

Lemma preserves_read_upload file name : preserves P (read_upload file name).
Proof. unfold read_upload. preserves_auto. Qed.

Lemma preserves_convert_staged path : preserves P (convert_staged path).
Proof. unfold convert_staged. preserves_auto. Qed.

Lemma preserves_except_suite name e : preserves P (except_suite name e).
Proof. unfold except_suite. preserves_auto. Qed.

Lemma preserves_finally_suite env : preserves P (finally_suite env).
Proof. unfold finally_suite. preserves_auto. Qed.

Hint Resolve preserves_read_upload preserves_convert_staged
  preserves_except_suite preserves_finally_suite : preserves.

(** With the assignments to [temp_file_path] taken care of, the whole
    handler keeps [P]. *)
Lemma preserves_stage env name data :
  (∀ v, preserves P (assign_temp_file_path v)) →
  preserves P (stage env name data).
Proof. intros Ha. unfold stage. preserves_auto; apply Ha. Qed.

Lemma preserves_handler req env :
  (∀ v, preserves P (assign_temp_file_path v)) →
  preserves P (handler req env).
Proof.
  intros Ha. pose proof (preserves_stage env) as Hs.
  unfold handler, try_suite. preserves_auto; now apply Hs.
Qed.
End WorldBlind.

(** *** The invariants used below *)

Lemma converter_is_world_blind k : world_blind (converter_is k).
Proof. intros fr s w H. exact H. Qed.

Lemma converter_is_assign k v : preserves (converter_is k) (assign_temp_file_path v).
Proof. intros c H. exact H. Qed.

(** Every step of the handler leaves the module global alone. *)
Lemma handler_keeps_converter req env k :
  preserves (converter_is k) (handler req env).
Proof.
  apply preserves_handler;
    [apply converter_is_world_blind | apply converter_is_assign].
Qed.

(** ** Running the pieces *)

Lemma run_bind {A B} (m : M A) (k : A → M B) c :
  (m ≫= k) c =
  match m c with
  | (Return a, c') => k a c'
  | (Raise e, c') => (Raise e, c')
  end.
Proof. reflexivity. Qed.

(** [read_upload] either logs and returns the bytes, or raises what the
    stream raised and changes nothing. *)
Lemma read_upload_raises file name e c :
  read file = Raise e → read_upload file name c = (Raise e, c).
Proof. intros H. unfold read_upload. rewrite run_bind. unfold lift. now rewrite H. Qed.

Lemma read_upload_returns file name data c :
  read file = Return data →
  fst (read_upload file name c) = Return data ∧
  fst (snd (read_upload file name c)) = fst c ∧
  converter (snd (snd (read_upload file name c))) = converter (snd c) ∧
  fs (world (snd (snd (read_upload file name c)))) = fs (world (snd c)) ∧
  names (world (snd (snd (read_upload file name c)))) = names (world (snd c)) ∧
  tmpdir (world (snd (snd (read_upload file name c)))) = tmpdir (world (snd c)).
Proof.
  intros H. unfold read_upload. rewrite run_bind. unfold lift. rewrite H.
  destruct c as [fr s]. repeat split.
Qed.

(** The [finally] clause on a frame in which nothing was assigned. *)
Lemma finally_suite_unbound env s fr :
  temp_file_path fr = Unbound →
  finally_suite env (fr, s) = (Raise unbound_temp_file_path, (fr, s)).
Proof.
  intros H. unfold finally_suite. rewrite run_bind.
  unfold load_temp_file_path. simpl. now rewrite H.
Qed.

Ltac unfold_monad :=
  unfold with_file, print, print_exc in *;
  unfold modify_world, get_world, global_converter, assign_temp_file_path,
    load_temp_file_path, try_except, try_finally, lift, raise in *;
  unfold mbind, M_bind, bind, mret, M_ret, ret in *.

(** Once [temp_file_path] is bound the [finally] clause cannot raise: it
    returns, leaves frame and module global as they were, and leaves the
    disk as [cleanup_disk] says. *)
Lemma finally_suite_bound env fr s :
  temp_file_path fr ≠ Unbound →
  ∃ w', finally_suite env (fr, s)
        = (Return tt, (fr, {| converter := converter s; world := w' |}))
      ∧ fs w' = cleanup_disk env fr (fs (world s))
      ∧ names w' = names (world s)
      ∧ tmpdir w' = tmpdir (world s).
Proof.
  intros Hb. unfold finally_suite, cleanup_disk, recorded_path, os_path_exists, os_remove.
  destruct fr as [[|v]]; [done|]. destruct s as [k w]. unfold_monad. simpl.
  destruct (truthy_str v) as [path|]; [| by eexists].
  destruct (fs w !! path) eqn:Hp; simpl; rewrite ?Hp; simpl.
  - destruct (remove_fault env) as [text|]; simpl; rewrite ?Hp; simpl; by eexists.
  - eexists. repeat split. simpl.
    destruct (remove_fault env); [done|]. by rewrite delete_id.
Qed.

(** A file field that can be looked up comes from a multi-dict that was
    built. *)
Lemma files_lookup_Some req key file :
  multidict_get key (files req) = Some file →
  ∃ d, request_files req = Return d ∧ multidict_get key d = Some file.
Proof.
  unfold files. destruct (request_files req) as [d|e]; [|discriminate].
  intros H. by exists d.
Qed.

(** A request that passes the three checks of lines 30-43 runs the
    [try] statement in a fresh frame. *)
Lemma handler_checks_passed req env s conv file :
  converter s = Some conv →
  multidict_get "file" (files req) = Some file →
  filename file ≠ "" →
  handler req env (on_entry s)
  = try_finally
      (try_except (try_suite env file (filename file)) Exception
         (except_suite (filename file)))
      (finally_suite env) (on_entry s).
Proof.
  intros Hk Hf Hn. apply files_lookup_Some in Hf as (d & Hd & Hf).
  unfold handler, on_entry. rewrite run_bind.
  unfold global_converter. simpl. rewrite Hk, run_bind. unfold lift.
  rewrite Hd, Hf.
  destruct (String.eqb_spec (filename file) ""); [done | reflexivity].
Qed.

Lemma process_document_handler req env s :
  process_document req env s
  = (fst (handler req env (on_entry s)), snd (snd (handler req env (on_entry s)))).
Proof.
  unfold process_document, on_entry.
  by destruct (handler req env (fresh_frame, s)) as [r [fr s']].
Qed.

(** The [except] clause returns the 500 response and leaves the frame
    alone. *)
Lemma except_suite_runs name e fr s :
  ∃ w', except_suite name e (fr, s)
        = (Return (failure_response e), (fr, {| converter := converter s; world := w' |}))
      ∧ fs w' = fs (world s) ∧ names w' = names (world s)
      ∧ tmpdir w' = tmpdir (world s).
Proof. unfold except_suite. unfold_monad. simpl. by eexists. Qed.

(** *** Strings and paths *)

Lemma string_app_cons ch (a b : string) : String ch a ++ b = String ch (a ++ b).
Proof. reflexivity. Qed.

Lemma string_app_assoc (a b c : string) : (a ++ b) ++ c = a ++ b ++ c.
Proof.
  induction a as [|ch a IH]; [done|].
  rewrite !string_app_cons. by rewrite IH.
Qed.

Lemma string_app_length (a b : string) :
  String.length (a ++ b) = String.length a + String.length b.
Proof.
  induction a as [|ch a IH]; [done|].
  rewrite string_app_cons. simpl. by rewrite IH.
Qed.

(** Equal concatenations with heads of equal length have equal heads. *)
Lemma string_app_inv_head (a c b d : string) :
  String.length a = String.length c → a ++ b = c ++ d → a = c ∧ b = d.
Proof.
  revert c. induction a as [|x a IH]; intros [|y c] Hl H; simpl in Hl; try discriminate.
  - done.
  - rewrite !string_app_cons in H. injection H as -> H. injection Hl as Hl.
    destruct (IH c Hl H) as [-> ->]. done.
Qed.

Lemma path_join_relative dir name :
  startswith_sep name = false → path_join dir name = dir_prefix dir ++ name.
Proof.
  intros H. unfold path_join, dir_prefix. rewrite H.
  destruct (String.eqb dir "" || endswith_sep dir); [done|].
  by rewrite string_app_assoc.
Qed.


Lemma temp_path_nonempty dir name suf :
  path_join dir ("tmp" ++ name ++ suf) ≠ "".
Proof.
  rewrite path_join_relative by reflexivity. intros H.
  apply (f_equal String.length) in H. rewrite !string_app_length in H.
  simpl in H. lia.
Qed.

Lemma truthy_str_nonempty p : p ≠ "" → truthy_str (Some p) = Some p.
Proof. by destruct p. Qed.

Lemma truthy_str_Some v p : truthy_str v = Some p → v = Some p ∧ p ≠ "".
Proof. destruct v as [[|a q]|]; simpl; intros H; by simplify_eq. Qed.

(** *** [tempfile] *)

(** When [_mkstemp_inner] creates a file, its path was free, it is built
    from one of the candidates, and the candidates before that one are
    used up. *)
Lemma mkstemp_inner_created attempts disk dir pre suf candidates path rest :
  mkstemp_inner attempts disk dir pre suf candidates = (Some path, rest) →
  disk !! path = None ∧
  ∃ skipped name,
    candidates = (skipped ++ name :: rest)%list ∧
    path = path_join dir (pre ++ name ++ suf).
Proof.
  revert candidates.
  induction attempts as [|n IH]; intros [|name cs] H; simpl in H; try discriminate.
  destruct (disk !! path_join dir (pre ++ name ++ suf)) eqn:Hd.
  - destruct (IH cs H) as (Hfree & skipped & name' & -> & ->).
    split; [done|]. by exists (name :: skipped), name'.
  - injection H as <- <-. split; [done|]. by exists [], name.
Qed.

(** *** Staging *)

#[local] Arguments mkstemp_inner : simpl never.

(** Whatever happens in the staging block, [temp_file_path] is bound
    when it is left: line 54 comes first. *)
Lemma stage_bound env name data c : path_bound (snd (stage env name data c)).
Proof.
  destruct c as [fr s]. unfold stage, path_bound. unfold_monad.
  unfold NamedTemporaryFile, file_write, file_close. unfold_monad. simpl.
  destruct (open_fault env); [done|].
  destruct (mkstemp_inner _ _ _ _ _ _) as [[path|] rest]; [|done].
  simpl. destruct (write_fault env) as [[n e]|]; simpl;
    destruct (close_fault env); done.
Qed.

(** When the staging block is left normally, a file has been created at
    a path that was free, the bytes have been written to it and the path
    has been recorded. *)
Lemma stage_returns env name data fr s c' :
  stage env name data (fr, s) = (Return tt, c') →
  ∃ path rest,
    mkstemp_inner TMP_MAX (fs (world s)) (tmpdir (world s)) "tmp"
      (snd (splitext name)) (names (world s)) = (Some path, rest)
    ∧ temp_file_path (fst c') = Bound (Some path)
    ∧ converter (snd c') = converter s
    ∧ fs (world (snd c')) = <[path := data]> (fs (world s))
    ∧ names (world (snd c')) = rest
    ∧ tmpdir (world (snd c')) = tmpdir (world s).
Proof.
  unfold stage. unfold_monad.
  unfold NamedTemporaryFile, file_write, file_close, contents. unfold_monad.
  simpl. intros H.
  destruct (open_fault env); [discriminate|].
  destruct (mkstemp_inner _ _ _ _ _ _) as [[path|] rest] eqn:Hm; [|discriminate].
  simpl in H. destruct (write_fault env) as [[n e]|]; simpl in H.
  { destruct (close_fault env); discriminate. }
  destruct (close_fault env); [discriminate|].
  injection H as <-. exists path, rest. simpl.
  rewrite lookup_insert_eq. simpl. by rewrite insert_insert_eq.
Qed.

(** *** Conversion *)

(** The conversion block only adds to the log; what it returns or raises
    is what the collaborator makes of the staged file. *)
Lemma convert_staged_runs path fr s conv :
  converter s = Some conv →
  ∃ w', convert_staged path (fr, s)
        = (match collaborator_outcome conv path (fs (world s)) with
           | Return markdown_output => Return (markdown_response markdown_output)
           | Raise e => Raise e
           end,
           (fr, {| converter := converter s; world := w' |}))
      ∧ same_but_log (world s) w'.
Proof.
  intros Hk. unfold convert_staged, collaborator_outcome, same_but_log.
  unfold_monad. simpl. rewrite Hk.
  destruct (convert conv path (fs (world s))) as [result|e]; simpl; [|by eexists].
  destruct (export_to_markdown (document result)); simpl; by eexists.
Qed.

(** *** The [try] statement *)

(** If [temp_file_path] is bound when the [try] suite is left, the
    [finally] clause does not disturb the result, and leaves of the disk
    what [cleanup_disk] says. *)
Lemma try_statement_bound env name (body : M Response) c r c' :
  body c = (r, c') → path_bound c' →
  ∃ w', try_finally (try_except body Exception (except_suite name)) (finally_suite env) c
        = (caught r, (fst c', {| converter := converter (snd c'); world := w' |}))
      ∧ fs w' = cleanup_disk env (fst c') (fs (world (snd c')))
      ∧ names w' = names (world (snd c'))
      ∧ tmpdir w' = tmpdir (world (snd c')).
Proof.
  intros Hb Hp. destruct c' as [fr s']. unfold try_finally, try_except. rewrite Hb.
  unfold caught. simpl.
  assert (Hfin : ∀ (o : outcome Response) s1,
    fs (world s1) = fs (world s') → names (world s1) = names (world s') →
    tmpdir (world s1) = tmpdir (world s') → converter s1 = converter s' →
    ∃ w', (let '(o', c'') := finally_suite env (fr, s1) in
           match o' with Return _ => (o, c'') | Raise e => (Raise e, c'') end)
          = (o, (fr, {| converter := converter s'; world := w' |}))
        ∧ fs w' = cleanup_disk env fr (fs (world s'))
        ∧ names w' = names (world s') ∧ tmpdir w' = tmpdir (world s')).
  { intros o s1 H1 H2 H3 H4.
    destruct (finally_suite_bound env fr s1 Hp) as (w' & -> & Hf & Hn & Ht).
    exists w'. rewrite H4, Hf, Hn, Ht, H1, H2, H3. done. }
  destruct r as [a|e].
  - by apply Hfin.
  - destruct (isinstance e Exception).
    + destruct (except_suite_runs name e fr s') as (w1 & -> & H1 & H2 & H3).
      by apply Hfin.
    + by apply Hfin.
Qed.

Lemma read_upload_after_read file data s :
  read file = Return data →
  read_upload file (filename file) (on_entry s) = (Return data, after_read file s).
Proof.
  intros H. unfold after_read.
  destruct (read_upload_returns file (filename file) data (on_entry s) H) as (Hr & _).
  destruct (read_upload _ _ _) as [r c]. simpl in *. by subst.
Qed.

Lemma after_read_state file data s :
  read file = Return data →
  fst (after_read file s) = fresh_frame ∧
  converter (snd (after_read file s)) = converter s ∧
  fs (world (snd (after_read file s))) = fs (world s) ∧
  names (world (snd (after_read file s))) = names (world s) ∧
  tmpdir (world (snd (after_read file s))) = tmpdir (world s).
Proof.
  intros H. unfold after_read.
  by destruct (read_upload_returns file (filename file) data (on_entry s) H)
    as (_ & ? & ? & ? & ? & ?).
Qed.

(** The [try] suite when staging raises. *)
Lemma try_suite_stage_raises env file data s e c2 :
  read file = Return data →
  stage env (filename file) data (after_read file s) = (Raise e, c2) →
  try_suite env file (filename file) (on_entry s) = (Raise e, c2).
Proof.
  intros Hr Hs. unfold try_suite. rewrite run_bind, (read_upload_after_read _ _ _ Hr).
  rewrite run_bind, Hs. done.
Qed.

(** The [try] suite when staging succeeds: the guard of line 61 is
    passed and the collaborator decides. *)
Lemma try_suite_staged env file data s conv c2 :
  read file = Return data →
  converter s = Some conv →
  stage env (filename file) data (after_read file s) = (Return tt, c2) →
  ∃ path w',
    temp_file_path (fst c2) = Bound (Some path) ∧ path ≠ "" ∧
    try_suite env file (filename file) (on_entry s)
    = (match collaborator_outcome conv path (fs (world (snd c2))) with
       | Return markdown_output => Return (markdown_response markdown_output)
       | Raise e => Raise e
       end,
       (fst c2, {| converter := converter (snd c2); world := w' |}))
    ∧ same_but_log (world (snd c2)) w'.
Proof.
  intros Hr Hk Hs.
  destruct (after_read_state file data s Hr) as (_ & Hk1 & _).
  destruct (after_read file s) as [fr1 s1] eqn:H1.
  destruct (stage_returns _ _ _ _ _ _ Hs) as (path & rest & Hm & Hp & Hk2 & _).
  apply mkstemp_inner_created in Hm as (_ & skipped & name & _ & Hpath).
  assert (Hne : path ≠ "") by (rewrite Hpath; apply temp_path_nonempty).
  simpl in Hk1. rewrite Hk1, Hk in Hk2.
  destruct c2 as [fr2 s2]. simpl in *.
  destruct (convert_staged_runs path fr2 s2 conv Hk2) as (w' & Hc & Hw).
  exists path, w'. split; [done|]. split; [done|]. split; [|done].
  unfold try_suite. rewrite run_bind, (read_upload_after_read _ _ _ Hr), H1.
  rewrite run_bind, Hs, run_bind. unfold load_temp_file_path. simpl.
  rewrite Hp, (truthy_str_nonempty _ Hne). exact Hc.
Qed.

(** *** The handler once the upload has been read *)

(** If the [try] suite ends in [r] with [temp_file_path] bound, the
    client gets [caught r]; the module global is untouched and the disk
    is what the [finally] clause leaves of it. *)
Lemma handler_after_read req env s conv file r c2 :
  converter s = Some conv →
  multidict_get "file" (files req) = Some file →
  filename file ≠ "" →
  try_suite env file (filename file) (on_entry s) = (r, c2) →
  path_bound c2 →
  fst (process_document req env s) = caught r ∧
  fs (world (snd (process_document req env s)))
    = cleanup_disk env (fst c2) (fs (world (snd c2))) ∧
  names (world (snd (process_document req env s))) = names (world (snd c2)) ∧
  tmpdir (world (snd (process_document req env s))) = tmpdir (world (snd c2)).
Proof.
  intros Hk Hf Hn Ht Hb. rewrite process_document_handler.
  rewrite (handler_checks_passed _ _ _ _ _ Hk Hf Hn).
  destruct (try_statement_bound env (filename file) _ _ _ _ Ht Hb)
    as (w' & -> & H1 & H2 & H3).
  done.
Qed.

(** Staging raised: the exception goes to the [except] clause. *)
Lemma handler_stage_raised req env s conv file data e c2 :
  converter s = Some conv →
  multidict_get "file" (files req) = Some file →
  filename file ≠ "" →
  read file = Return data →
  stage env (filename file) data (after_read file s) = (Raise e, c2) →
  fst (process_document req env s) = caught (Raise e) ∧
  fs (world (snd (process_document req env s)))
    = cleanup_disk env (fst c2) (fs (world (snd c2))).
Proof.
  intros Hk Hf Hn Hr Hs.
  pose proof (try_suite_stage_raises _ _ _ _ _ _ Hr Hs) as Ht.
  assert (Hb : path_bound c2).
  { pose proof (stage_bound env (filename file) data (after_read file s)) as H.
    by rewrite Hs in H. }
  destruct (handler_after_read _ _ _ _ _ _ _ Hk Hf Hn Ht Hb) as (H1 & H2 & _).
  done.
Qed.

(** Staging succeeded: the collaborator decides the response, and the
    [finally] clause sees the recorded path. *)
Lemma handler_staged req env s conv file data c2 :
  converter s = Some conv →
  multidict_get "file" (files req) = Some file →
  filename file ≠ "" →
  read file = Return data →
  stage env (filename file) data (after_read file s) = (Return tt, c2) →
  ∃ path,
    recorded_path (fst c2) = Some path ∧
    fst (process_document req env s)
    = caught (match collaborator_outcome conv path (fs (world (snd c2))) with
              | Return markdown_output => Return (markdown_response markdown_output)
              | Raise e => Raise e
              end) ∧
    fs (world (snd (process_document req env s)))
      = cleanup_disk env (fst c2) (fs (world (snd c2))) ∧
    names (world (snd (process_document req env s))) = names (world (snd c2)) ∧
    tmpdir (world (snd (process_document req env s))) = tmpdir (world (snd c2)).
Proof.
  intros Hk Hf Hn Hr Hs.
  destruct (try_suite_staged _ _ _ _ _ _ Hr Hk Hs)
    as (path & w' & Hp & Hne & Ht & Hfs & Hnames & Htmp).
  assert (Hb : path_bound (fst c2, {| converter := converter (snd c2); world := w' |})).
  { unfold path_bound. simpl. by rewrite Hp. }
  destruct (handler_after_read _ _ _ _ _ _ _ Hk Hf Hn Ht Hb) as (H1 & H2 & H3 & H4).
  exists path. simpl in *.
  split; [unfold recorded_path; rewrite Hp; by apply truthy_str_nonempty|].
  rewrite H1, H2, H3, H4, Hfs, Hnames, Htmp. done.
Qed.

(** *** The handler before the [try] statement, and when the read fails *)

(** Line 30: no converter. *)
Lemma process_document_unavailable req env s :
  converter s = None →
  process_document req env s
  = (Return unavailable_response,
     {| converter := converter s;
        world := add_log (Stdout "Error: Docling converter was not initialized.") (world s) |}).
Proof.
  intros Hk. rewrite process_document_handler. unfold handler, on_entry.
  destruct s as [k w]. simpl in Hk. subst k.
  rewrite run_bind. unfold global_converter. by unfold_monad.
Qed.

(** Line 35: building the multi-dict raises.  This is outside the [try]
    statement: the exception leaves the handler, and nothing has been
    printed or staged. *)
Lemma process_document_unparsed req env s conv e :
  converter s = Some conv →
  request_files req = Raise e →
  process_document req env s = (Raise e, s).
Proof.
  intros Hk Hd. rewrite process_document_handler. unfold handler, on_entry.
  destruct s as [k w]. simpl in Hk. subst k.
  rewrite run_bind. unfold global_converter. simpl. rewrite run_bind. unfold lift.
  by rewrite Hd.
Qed.

(** Line 35: no [file] field. *)
Lemma process_document_no_file_part req env s conv d :
  converter s = Some conv →
  request_files req = Return d →
  multidict_get "file" d = None →
  process_document req env s
  = (Return no_file_part_response,
     {| converter := converter s;
        world := add_log (Stdout "Error: No 'file' part in the request.") (world s) |}).
Proof.
  intros Hk Hd Hf. rewrite process_document_handler. unfold handler, on_entry.
  destruct s as [k w]. simpl in Hk. subst k.
  rewrite run_bind. unfold global_converter. simpl. rewrite run_bind. unfold lift.
  rewrite Hd, Hf. by unfold_monad.
Qed.

(** Line 41: empty file name. *)
Lemma process_document_no_selected_file req env s conv file :
  converter s = Some conv →
  multidict_get "file" (files req) = Some file →
  filename file = "" →
  process_document req env s
  = (Return no_selected_file_response,
     {| converter := converter s;
        world := add_log (Stdout "Error: No file selected.") (world s) |}).
Proof.
  intros Hk Hf Hn. apply files_lookup_Some in Hf as (d & Hd & Hf).
  rewrite process_document_handler. unfold handler, on_entry.
  destruct s as [k w]. simpl in Hk. subst k.
  rewrite run_bind. unfold global_converter. simpl. rewrite run_bind. unfold lift.
  rewrite Hd, Hf, Hn. by unfold_monad.
Qed.

(** Line 50 raises: the [try] suite is left with nothing assigned to
    [temp_file_path] and nothing changed. *)
Lemma try_suite_read_raises env file e s :
  read file = Raise e →
  try_suite env file (filename file) (on_entry s) = (Raise e, on_entry s).
Proof.
  intros Hr. unfold try_suite. rewrite run_bind.
  by rewrite (read_upload_raises _ _ _ _ Hr).
Qed.

(** If [temp_file_path] is still unbound when the [try] suite is left,
    the [finally] clause raises, whatever the suite and the [except]
    clause had come to. *)
Lemma try_statement_unbound env name (body : M Response) c r s' :
  body c = (r, (fresh_frame, s')) →
  fst (try_finally (try_except body Exception (except_suite name)) (finally_suite env) c)
  = Raise unbound_temp_file_path.
Proof.
  intros Hb. unfold try_finally, try_except. rewrite Hb.
  destruct r as [a|e].
  - by rewrite finally_suite_unbound.
  - destruct (isinstance e Exception).
    + destruct (except_suite_runs name e fresh_frame s') as (w' & -> & _).
      by rewrite finally_suite_unbound.
    + by rewrite finally_suite_unbound.
Qed.

(** *** The module global across requests *)

Lemma process_document_keeps_converter req env s :
  converter (snd (process_document req env s)) = converter s.
Proof.
  rewrite process_document_handler. simpl.
  exact (handler_keeps_converter req env (converter s) (on_entry s) eq_refl).
Qed.

Lemma serve_keeps_converter reqs s :
  converter (snd (serve reqs s)) = converter s.
Proof.
  revert s. induction reqs as [|[req env] reqs IH]; intros s; simpl; [done|].
  pose proof (process_document_keeps_converter req env s) as H.
  destruct (process_document req env s) as [r s']. simpl in H.
  specialize (IH s'). destruct (serve reqs s') as [rs s'']. simpl in *. congruence.
Qed.

Lemma serve_length reqs s : length (fst (serve reqs s)) = length reqs.
Proof.
  revert s. induction reqs as [|[req env] reqs IH]; intros s; simpl; [done|].
  destruct (process_document req env s) as [r s'].
  specialize (IH s'). destruct (serve reqs s') as [rs s'']. simpl in *. by rewrite IH.
Qed.

(** Without a converter every request of a run is turned away. *)
Lemma serve_unavailable reqs s :
  converter s = None →
  Forall (λ r, r = Return unavailable_response) (fst (serve reqs s)).
Proof.
  revert s. induction reqs as [|[req env] reqs IH]; intros s Hk; simpl; [constructor|].
  rewrite (process_document_unavailable req env s Hk).
  match goal with |- context [serve reqs ?s1] => specialize (IH s1 Hk);
    destruct (serve reqs s1) as [rs s''] end.
  simpl in *. by constructor.
Qed.

(** *** A write that fails *)

(** When [temp_file.write] raises, the file [NamedTemporaryFile] created
    stays behind with what had been written, and line 57 has not run. *)
Lemma stage_write_fails env name data fr s path rest n e :
  open_fault env = None →
  mkstemp_inner TMP_MAX (fs (world s)) (tmpdir (world s)) "tmp"
    (snd (splitext name)) (names (world s)) = (Some path, rest) →
  write_fault env = Some (n, e) →
  ∃ e' c',
    stage env name data (fr, s) = (Raise e', c') ∧
    temp_file_path (fst c') = Bound None ∧
    fs (world (snd c')) = <[path := take n data]> (fs (world s)).
Proof.
  intros Ho Hm Hw. unfold stage. unfold_monad.
  unfold NamedTemporaryFile, file_write, file_close, contents. unfold_monad.
  simpl. rewrite Ho. simpl. rewrite Hm. simpl. rewrite Hw. simpl.
  rewrite lookup_insert_eq. simpl. rewrite insert_insert_eq.
  destruct (close_fault env); by do 2 eexists.
Qed.

(** *** Clean-up of a recorded path *)

(** When the staging block has recorded the path and [os.remove] does
    not fail, the staged file is gone when the handler returns, whatever
    the collaborator did. *)
Lemma recorded_file_is_removed req env s conv file data c2 path :
  converter s = Some conv →
  multidict_get "file" (files req) = Some file →
  filename file ≠ "" →
  read file = Return data →
  stage env (filename file) data (after_read file s) = (Return tt, c2) →
  recorded_path (fst c2) = Some path →
  remove_fault env = None →
  fs (world (snd (process_document req env s))) !! path = None.
Proof.
  intros Hk Hf Hn Hr Hs Hp Hrm.
  destruct (handler_staged _ _ _ _ _ _ _ Hk Hf Hn Hr Hs) as (path' & _ & _ & -> & _).
  unfold cleanup_disk. rewrite Hp, Hrm. apply lookup_delete_eq.
Qed.

(** *** Two staged paths *)

(** Temporary paths built in the same directory from different
    candidates of the same length differ, whatever the suffixes. *)
Lemma temp_paths_differ dir name1 name2 suf1 suf2 :
  String.length name1 = String.length name2 →
  name1 ≠ name2 →
  path_join dir ("tmp" ++ name1 ++ suf1) ≠ path_join dir ("tmp" ++ name2 ++ suf2).
Proof.
  intros Hl Hne H. rewrite !path_join_relative in H by reflexivity.
  apply String.app_inj in H. apply (String.app_inj "tmp") in H.
  by destruct (string_app_inv_head _ _ _ _ Hl H).
Qed.

(** What a successfully staged request leaves for the next one. *)
Lemma staged_request_leaves req env s conv file data c2 :
  converter s = Some conv →
  multidict_get "file" (files req) = Some file →
  filename file ≠ "" →
  read file = Return data →
  stage env (filename file) data (after_read file s) = (Return tt, c2) →
  ∃ path skipped name,
    recorded_path (fst c2) = Some path ∧
    path = path_join (tmpdir (world s)) ("tmp" ++ name ++ snd (splitext (filename file))) ∧
    names (world s)
      = (skipped ++ name :: names (world (snd (process_document req env s))))%list ∧
    tmpdir (world (snd (process_document req env s))) = tmpdir (world s) ∧
    fs (world (snd c2)) !! path = Some data ∧
    fst (process_document req env s)
    = caught (match collaborator_outcome conv path (fs (world (snd c2))) with
              | Return markdown_output => Return (markdown_response markdown_output)
              | Raise e => Raise e
              end).
Proof.
  intros Hk Hf Hn Hr Hs.
  destruct (handler_staged _ _ _ _ _ _ _ Hk Hf Hn Hr Hs)
    as (path & Hp & Hout & _ & Hnames & Htmp).
  destruct (after_read_state file data s Hr) as (_ & _ & Hfs1 & Hnames1 & Htmp1).
  destruct (after_read file s) as [fr1 s1]. simpl in *.
  destruct (stage_returns _ _ _ _ _ _ Hs)
    as (path' & rest & Hm & Hp' & _ & Hdisk & Hrest & Htmp2).
  apply mkstemp_inner_created in Hm as (_ & skipped & name & Hcands & Hpath).
  assert (path' = path) as ->.
  { unfold recorded_path in Hp. rewrite Hp' in Hp.
    by apply truthy_str_Some in Hp as [[= ->] _]. }
  exists path, skipped, name. rewrite Hnames, Htmp, Hrest, Htmp2, <- Htmp1, <- Hnames1.
  repeat split; try done.
  rewrite Hdisk. apply lookup_insert_eq.
Qed.

(** Two files staged one after the other, the first still on disk when
    the second is created, are at different paths whatever names the
    generator yields: a path that is taken is skipped. *)
Lemma staged_paths_differ_while_first_exists env1 env2 name1 name2 data1 data2 c c1 c2 :
  stage env1 name1 data1 c = (Return tt, c1) →
  stage env2 name2 data2 c1 = (Return tt, c2) →
  ∃ path1 path2,
    temp_file_path (fst c1) = Bound (Some path1) ∧
    temp_file_path (fst c2) = Bound (Some path2) ∧
    path1 ≠ path2.
Proof.
  destruct c as [fr s], c1 as [fr1 s1]. intros H1 H2.
  destruct (stage_returns _ _ _ _ _ _ H1) as (path1 & rest1 & _ & Hp1 & _ & Hdisk & _).
  destruct (stage_returns _ _ _ _ _ _ H2) as (path2 & rest2 & Hm & Hp2 & _).
  apply mkstemp_inner_created in Hm as [Hfree _].
  exists path1, path2. split; [done|]. split; [done|].
  intros ->. simpl in Hdisk. rewrite Hdisk, lookup_insert_eq in Hfree. discriminate.
Qed.

(** ** Claims *)

(** C1 (the code departs from the claim).  The claim has every
    exception raised in the handler, also one raised while the upload is
    read, end in a JSON error response.  When [file.read()] raises,
    [temp_file_path] has not been assigned yet (line 45 initialises
    [single_page_temp_file_path] instead), so the [finally] clause raises
    [UnboundLocalError], which replaces the response the [except] clause
    had prepared and leaves the handler. *)
Theorem read_failure_escapes req env s conv file e :
  converter s = Some conv →
  multidict_get "file" (files req) = Some file →
  filename file ≠ "" →
  read file = Raise e →
  fst (process_document req env s) = Raise unbound_temp_file_path.
Proof.
  intros Hk Hf Hn Hr. rewrite process_document_handler. simpl.
  rewrite (handler_checks_passed _ _ _ _ _ Hk Hf Hn).
  apply (try_statement_unbound env (filename file) _ _ (Raise e) s).
  by apply try_suite_read_raises.
Qed.

Lemma read_failure_escapes_witness :
  fst (process_document Sample.req_unreadable no_faults Sample.s0)
  = Raise unbound_temp_file_path.
Proof.
  apply (read_failure_escapes Sample.req_unreadable no_faults Sample.s0
           Sample.conv Sample.unreadable_upload Sample.eio);
    [reflexivity | reflexivity | discriminate | reflexivity].
Defined.

(** C2 (the code departs from the claim).  The claim has the staged
    file deleted on every exit path.  When [temp_file.write] raises
    (line 56), the file [NamedTemporaryFile] created exists, but its
    path is recorded only on line 57: [temp_file_path] is still [None],
    the [finally] clause skips the removal, and the file, with the bytes
    written so far, is on disk when the handler has returned. *)
Theorem write_failure_leaves_staged_file req env s conv file data path rest n e :
  converter s = Some conv →
  multidict_get "file" (files req) = Some file →
  filename file ≠ "" →
  read file = Return data →
  open_fault env = None →
  mkstemp_inner TMP_MAX (fs (world s)) (tmpdir (world s)) "tmp"
    (snd (splitext (filename file))) (names (world s)) = (Some path, rest) →
  write_fault env = Some (n, e) →
  fs (world s) !! path = None ∧
  fs (world (snd (process_document req env s))) !! path = Some (take n data).
Proof.
  intros Hk Hf Hn Hr Ho Hm Hw.
  split; [by apply mkstemp_inner_created in Hm as [? _]|].
  destruct (after_read_state file data s Hr) as (_ & _ & Hfs & Hnames & Htmp).
  destruct (after_read file s) as [fr1 s1] eqn:H1. simpl in *.
  rewrite <- Hfs, <- Hnames, <- Htmp in Hm.
  destruct (stage_write_fails env (filename file) data fr1 s1 path rest n e Ho Hm Hw)
    as (e' & c' & Hs & Hp & Hdisk).
  rewrite <- H1 in Hs.
  destruct (handler_stage_raised _ _ _ _ _ _ _ _ Hk Hf Hn Hr Hs) as [_ ->].
  unfold cleanup_disk, recorded_path. rewrite Hp. simpl.
  rewrite Hdisk. apply lookup_insert_eq.
Qed.

Lemma write_failure_leaves_staged_file_witness :
  fs (world Sample.s0) !! "/tmp/tmpk3j_x0aq.pdf" = None ∧
  fs (world (snd (process_document Sample.req Sample.disk_full Sample.s0)))
    !! "/tmp/tmpk3j_x0aq.pdf" = Some [x25; x50]%byte.
Proof.
  apply (write_failure_leaves_staged_file Sample.req Sample.disk_full Sample.s0
           Sample.conv Sample.upload Sample.pdf_bytes "/tmp/tmpk3j_x0aq.pdf"
           ["zz81mwp4"] 2 Sample.enospc);
    [reflexivity | reflexivity | discriminate | reflexivity | reflexivity
    | vm_compute; reflexivity | reflexivity].
Defined.

(** C3.  When an exception (an instance of [Exception], the class the
    [except] clause of line 75 names) is raised while the file is
    staged, or by the collaborator's conversion or Markdown export, the
    response has status 500 and its body is the JSON object with
    [error] set to "Failed to process document with docling" and
    [details] set to the exception's message. *)
Theorem processing_failure_response req env s conv file data e :
  converter s = Some conv →
  multidict_get "file" (files req) = Some file →
  filename file ≠ "" →
  read file = Return data →
  processing_raises env conv file data s e →
  isinstance e Exception = true →
  fst (process_document req env s)
  = Return {| status := 500; mimetype := "application/json";
              body := Json [("error", "Failed to process document with docling");
                            ("details", msg e)] |}.
Proof.
  intros Hk Hf Hn Hr Hraise He.
  change (fst (process_document req env s) = Return (failure_response e)).
  destruct Hraise as [c2 Hs | c2 path Hs Hp Hc | c2 path result Hs Hp Hc Hx].
  - destruct (handler_stage_raised _ _ _ _ _ _ _ _ Hk Hf Hn Hr Hs) as [-> _].
    simpl. by rewrite He.
  - destruct (handler_staged _ _ _ _ _ _ _ Hk Hf Hn Hr Hs) as (path' & Hp' & -> & _).
    rewrite Hp in Hp'. injection Hp' as <-.
    unfold collaborator_outcome. rewrite Hc. simpl. by rewrite He.
  - destruct (handler_staged _ _ _ _ _ _ _ Hk Hf Hn Hr Hs) as (path' & Hp' & -> & _).
    rewrite Hp in Hp'. injection Hp' as <-.
    unfold collaborator_outcome. rewrite Hc, Hx. simpl. by rewrite He.
Qed.

Lemma processing_failure_response_witness :
  fst (process_document Sample.req no_faults Sample.s_failing)
  = Return {| status := 500; mimetype := "application/json";
              body := Json [("error", "Failed to process document with docling");
                            ("details", "File format not allowed: report.pdf")] |}.
Proof.
  apply (processing_failure_response Sample.req no_faults Sample.s_failing
           Sample.failing_conv Sample.upload Sample.pdf_bytes Sample.conversion_error);
    [reflexivity | reflexivity | discriminate | reflexivity | | reflexivity].
  apply (convert_raises _ _ _ _ _ _
           (snd (stage no_faults "report.pdf" Sample.pdf_bytes
                   (after_read Sample.upload Sample.s_failing)))
           "/tmp/tmpk3j_x0aq.pdf");
    [vm_compute; reflexivity | vm_compute; reflexivity | reflexivity].
Defined.

(** C4.  If constructing the converter failed at start-up (with an
    instance of [Exception], so that the process did start), the module
    global holds [None], and every request served afterwards, whatever
    it carries, is answered 503 with
    [{"error": "Docling converter not initialized during startup"}];
    the global still holds [None] after any number of requests. *)
Theorem unavailable_after_failed_startup e w :
  isinstance e Exception = true →
  ∃ s, startup (Raise e) w = Return s ∧
       converter s = None ∧
       ∀ reqs,
         length (fst (serve reqs s)) = length reqs ∧
         Forall (λ r, r = Return {| status := 503; mimetype := "application/json";
                                    body := Json [("error", "Docling converter not initialized during startup")] |})
                (fst (serve reqs s)) ∧
         converter (snd (serve reqs s)) = None.
Proof.
  intros He. unfold startup. rewrite He. eexists. split; [reflexivity|].
  split; [reflexivity|]. intros reqs. split; [apply serve_length|]. split.
  - by apply serve_unavailable.
  - by rewrite serve_keeps_converter.
Qed.

Lemma unavailable_after_failed_startup_witness :
  ∃ s, startup (Raise Sample.init_error) Sample.w0 = Return s ∧
       converter s = None ∧
       ∀ reqs,
         length (fst (serve reqs s)) = length reqs ∧
         Forall (λ r, r = Return {| status := 503; mimetype := "application/json";
                                    body := Json [("error", "Docling converter not initialized during startup")] |})
                (fst (serve reqs s)) ∧
         converter (snd (serve reqs s)) = None.
Proof.
  apply (unavailable_after_failed_startup Sample.init_error Sample.w0). reflexivity.
Defined.

(** C5.  When the collaborator converts the staged upload and exports
    it without raising, the response has the success status, content
    type [text/markdown], and the exported Markdown as its body. *)
Theorem converted_document_response req env s conv file data c2 path result markdown_output :
  converter s = Some conv →
  multidict_get "file" (files req) = Some file →
  filename file ≠ "" →
  read file = Return data →
  stage env (filename file) data (after_read file s) = (Return tt, c2) →
  recorded_path (fst c2) = Some path →
  convert conv path (fs (world (snd c2))) = Return result →
  export_to_markdown (document result) = Return markdown_output →
  fst (process_document req env s)
  = Return {| status := 200; mimetype := "text/markdown"; body := Text markdown_output |}.
Proof.
  intros Hk Hf Hn Hr Hs Hp Hc Hx.
  destruct (handler_staged _ _ _ _ _ _ _ Hk Hf Hn Hr Hs) as (path' & Hp' & -> & _).
  rewrite Hp in Hp'. injection Hp' as <-.
  unfold collaborator_outcome. by rewrite Hc, Hx.
Qed.

Lemma converted_document_response_witness :
  fst (process_document Sample.req no_faults Sample.s0)
  = Return {| status := 200; mimetype := "text/markdown"; body := Text "# Title" |}.
Proof.
  apply (converted_document_response Sample.req no_faults Sample.s0 Sample.conv
           Sample.upload Sample.pdf_bytes
           (snd (stage no_faults "report.pdf" Sample.pdf_bytes
                   (after_read Sample.upload Sample.s0)))
           "/tmp/tmpk3j_x0aq.pdf" {| document := Sample.doc |} "# Title");
    [reflexivity | reflexivity | discriminate | reflexivity
    | vm_compute; reflexivity | vm_compute; reflexivity
    | vm_compute; reflexivity | reflexivity].
Defined.

(** C6 (amended).  With the converter available and a body from which
    [request.files] can be built, a request without a [file] field is
    answered 400 with [{"error": "No file part in the request"}], and one
    whose [file] field has an empty file name is answered 400 with
    [{"error": "No selected file"}].  When building [request.files]
    raises (line 35, before the [try] statement), that exception leaves
    the handler instead.  In all three cases the disk is as it was and
    no temporary name has been drawn. *)
Theorem precondition_checks_on_parsed_body req env s conv :
  converter s = Some conv →
  (∀ d,
   request_files req = Return d →
   multidict_get "file" d = None →
   fst (process_document req env s)
   = Return {| status := 400; mimetype := "application/json";
               body := Json [("error", "No file part in the request")] |} ∧
   fs (world (snd (process_document req env s))) = fs (world s) ∧
   names (world (snd (process_document req env s))) = names (world s)) ∧
  (∀ d file,
   request_files req = Return d →
   multidict_get "file" d = Some file →
   filename file = "" →
   fst (process_document req env s)
   = Return {| status := 400; mimetype := "application/json";
               body := Json [("error", "No selected file")] |} ∧
   fs (world (snd (process_document req env s))) = fs (world s) ∧
   names (world (snd (process_document req env s))) = names (world s)) ∧
  (∀ e,
   request_files req = Raise e →
   process_document req env s = (Raise e, s)).
Proof.
  intros Hk. split; [|split].
  - intros d Hd Hf. by rewrite (process_document_no_file_part _ _ _ _ _ Hk Hd Hf).
  - intros d file Hd Hf Hn.
    assert (Hf' : multidict_get "file" (files req) = Some file)
      by (unfold files; by rewrite Hd).
    by rewrite (process_document_no_selected_file _ _ _ _ _ Hk Hf' Hn).
  - intros e Hd. by apply (process_document_unparsed _ _ _ conv).
Qed.

Lemma precondition_checks_on_parsed_body_witness :
  fst (process_document Sample.req_empty no_faults Sample.s0)
  = Return {| status := 400; mimetype := "application/json";
              body := Json [("error", "No file part in the request")] |} ∧
  fst (process_document Sample.req_unnamed no_faults Sample.s0)
  = Return {| status := 400; mimetype := "application/json";
              body := Json [("error", "No selected file")] |} ∧
  process_document SampleEdge.req_oversized no_faults Sample.s0
  = (Raise SampleEdge.too_large, Sample.s0).
Proof.
  split; [|split].
  - apply (proj1 (precondition_checks_on_parsed_body Sample.req_empty no_faults
                    Sample.s0 Sample.conv eq_refl) []);
      reflexivity.
  - apply (proj1 (proj2 (precondition_checks_on_parsed_body Sample.req_unnamed no_faults
                           Sample.s0 Sample.conv eq_refl))
             [("file", Sample.unnamed_upload)] Sample.unnamed_upload);
      reflexivity.
  - apply (proj2 (proj2 (precondition_checks_on_parsed_body SampleEdge.req_oversized
                           no_faults Sample.s0 Sample.conv eq_refl))
             SampleEdge.too_large).
    reflexivity.
Defined.

(** C6 as first stated, for every request, does not hold: a request
    that carries no [file] field and whose body werkzeug refuses to
    parse is not answered 400; the handler raises. *)
Lemma unparsed_body_is_not_answered :
  converter Sample.s0 = Some Sample.conv ∧
  multidict_get "file" (files SampleEdge.req_oversized) = None ∧
  fst (process_document SampleEdge.req_oversized no_faults Sample.s0)
  = Raise SampleEdge.too_large ∧
  fst (process_document SampleEdge.req_oversized no_faults Sample.s0)
  ≠ Return {| status := 400; mimetype := "application/json";
              body := Json [("error", "No file part in the request")] |}.
Proof.
  split; [reflexivity|]. split; [reflexivity|].
  rewrite (process_document_unparsed SampleEdge.req_oversized no_faults Sample.s0
             Sample.conv SampleEdge.too_large eq_refl eq_refl).
  split; [reflexivity | discriminate].
Qed.



(** C8 (amended).  Two requests carrying the same bytes, served one
    after the other and both staged, get the same response when the
    collaborator is a function of the staged file's content alone.
    Their staged paths differ provided the name generator of [tempfile]
    does not yield a candidate name twice (candidates being eight
    characters long): the first file has been removed when the second is
    created, so nothing in the handler forces a new name. *)
Theorem same_bytes_twice req1 req2 env1 env2 s conv file1 file2 data c1 c2 path1 path2 :
  converter s = Some conv →
  multidict_get "file" (files req1) = Some file1 →
  filename file1 ≠ "" →
  read file1 = Return data →
  multidict_get "file" (files req2) = Some file2 →
  filename file2 ≠ "" →
  read file2 = Return data →
  (∀ p q d d' content,
     d !! p = Some content → d' !! q = Some content →
     convert conv p d = convert conv q d') →
  stage env1 (filename file1) data (after_read file1 s) = (Return tt, c1) →
  recorded_path (fst c1) = Some path1 →
  stage env2 (filename file2) data
    (after_read file2 (snd (process_document req1 env1 s))) = (Return tt, c2) →
  recorded_path (fst c2) = Some path2 →
  fst (process_document req1 env1 s)
  = fst (process_document req2 env2 (snd (process_document req1 env1 s))) ∧
  (NoDup (names (world s)) →
   Forall (λ name, String.length name = 8) (names (world s)) →
   path1 ≠ path2).
Proof.
  intros Hk Hf1 Hn1 Hr1 Hf2 Hn2 Hr2 Hdet Hs1 Hp1 Hs2 Hp2.
  destruct (staged_request_leaves _ _ _ _ _ _ _ Hk Hf1 Hn1 Hr1 Hs1)
    as (p1 & skipped1 & name1 & Hp1' & Hpath1 & Hnames1 & Htmp1 & Hdisk1 & Hout1).
  rewrite Hp1 in Hp1'. injection Hp1' as <-.
  set (s1 := snd (process_document req1 env1 s)) in *.
  assert (Hk1 : converter s1 = Some conv).
  { unfold s1. by rewrite process_document_keeps_converter. }
  destruct (staged_request_leaves _ _ _ _ _ _ _ Hk1 Hf2 Hn2 Hr2 Hs2)
    as (p2 & skipped2 & name2 & Hp2' & Hpath2 & Hnames2 & Htmp2 & Hdisk2 & Hout2).
  rewrite Hp2 in Hp2'. injection Hp2' as <-.
  split.
  - rewrite Hout1, Hout2. unfold collaborator_outcome.
    by rewrite (Hdet path1 path2 _ _ data Hdisk1 Hdisk2).
  - intros Hnodup Hlen.
    rewrite Hpath1, Hpath2, Htmp1. rewrite Hnames1, Hnames2 in Hnodup, Hlen.
    apply NoDup_app in Hnodup as (_ & _ & Hnodup).
    apply NoDup_cons in Hnodup as [Hnotin _].
    apply Forall_app in Hlen as [_ Hlen].
    apply Forall_cons in Hlen as [Hl1 Hlen].
    apply Forall_app in Hlen as [_ Hlen].
    apply Forall_cons in Hlen as [Hl2 _].
    apply temp_paths_differ; [congruence|].
    intros ->. apply Hnotin. apply elem_of_app. right. by left.
Qed.

Lemma same_bytes_twice_witness :
  fst (process_document Sample.req no_faults Sample.s0)
  = fst (process_document Sample.req_docx no_faults
           (snd (process_document Sample.req no_faults Sample.s0))) ∧
  (NoDup (names (world Sample.s0)) →
   Forall (λ name, String.length name = 8) (names (world Sample.s0)) →
   "/tmp/tmpk3j_x0aq.pdf" ≠ "/tmp/tmpzz81mwp4.docx").
Proof.
  apply (same_bytes_twice Sample.req Sample.req_docx no_faults no_faults Sample.s0
           Sample.conv Sample.upload Sample.upload_docx Sample.pdf_bytes
           (snd (stage no_faults "report.pdf" Sample.pdf_bytes
                   (after_read Sample.upload Sample.s0)))
           (snd (stage no_faults "notes.docx" Sample.pdf_bytes
                   (after_read Sample.upload_docx
                      (snd (process_document Sample.req no_faults Sample.s0)))))).
  - reflexivity.
  - reflexivity.
  - discriminate.
  - reflexivity.
  - reflexivity.
  - discriminate.
  - reflexivity.
  - intros p q d d' content Hp Hq. simpl. by rewrite Hp, Hq.
  - vm_compute. reflexivity.
  - vm_compute. reflexivity.
  - vm_compute. reflexivity.
  - vm_compute. reflexivity.
Defined.

(** C8 as first stated does not hold: when the generator yields the
    same candidate for both requests, the same upload, sent twice, is
    staged twice at the same path, both requests being answered with the
    Markdown. *)
Lemma repeated_candidate_same_path :
  fst (stage no_faults "report.pdf" Sample.pdf_bytes
         (after_read Sample.upload SampleEdge.s_repeat)) = Return tt ∧
  recorded_path
    (fst (snd (stage no_faults "report.pdf" Sample.pdf_bytes
                 (after_read Sample.upload SampleEdge.s_repeat))))
  = Some "/tmp/tmpk3j_x0aq.pdf" ∧
  fst (stage no_faults "report.pdf" Sample.pdf_bytes
         (after_read Sample.upload
            (snd (process_document Sample.req no_faults SampleEdge.s_repeat))))
  = Return tt ∧
  recorded_path
    (fst (snd (stage no_faults "report.pdf" Sample.pdf_bytes
                 (after_read Sample.upload
                    (snd (process_document Sample.req no_faults SampleEdge.s_repeat))))))
  = Some "/tmp/tmpk3j_x0aq.pdf" ∧
  fst (process_document Sample.req no_faults SampleEdge.s_repeat)
  = Return (markdown_response "# Title") ∧
  fst (process_document Sample.req no_faults
         (snd (process_document Sample.req no_faults SampleEdge.s_repeat)))
  = Return (markdown_response "# Title").
Proof. repeat split; vm_compute; reflexivity. Qed.

(** C9.  The guard of lines 61-62 is never taken: when the staging
    block is left normally [temp_file_path] holds a non-empty string,
    and no request is answered with status 500 and the body
    [{"error": "Internal error: Temp file path not set."}]. *)
Theorem path_not_set_unreachable :
  (∀ env name data c c',
     stage env name data c = (Return tt, c') →
     ∃ path, temp_file_path (fst c') = Bound (Some path) ∧ path ≠ "") ∧
  (∀ req env s,
     fst (process_document req env s)
     ≠ Return {| status := 500; mimetype := "application/json";
                 body := Json [("error", "Internal error: Temp file path not set.")] |}).
Proof.
  split.
  - intros env name data [fr s] c' Hs.
    destruct (stage_returns _ _ _ _ _ _ Hs) as (path & rest & Hm & Hp & _).
    apply mkstemp_inner_created in Hm as (_ & skipped & cand & _ & Hpath).
    exists path. split; [done|]. rewrite Hpath. apply temp_path_nonempty.
  - intros req env s.
    assert (Hcaught : ∀ r : outcome Response,
              (∀ a, r = Return a → ∃ md, a = markdown_response md) →
              caught r ≠ Return path_not_set_response).
    { intros [a|e] Ha; simpl.
      - destruct (Ha a eq_refl) as [md ->]. discriminate.
      - destruct (isinstance e Exception); discriminate. }
    change (fst (process_document req env s) ≠ Return path_not_set_response).
    destruct (converter s) as [conv|] eqn:Hk.
    2:{ rewrite (process_document_unavailable _ _ _ Hk). discriminate. }
    destruct (request_files req) as [d|e0] eqn:Hd.
    2:{ rewrite (process_document_unparsed _ _ _ _ _ Hk Hd). discriminate. }
    destruct (multidict_get "file" d) as [file|] eqn:Hf'.
    2:{ rewrite (process_document_no_file_part _ _ _ _ _ Hk Hd Hf'). discriminate. }
    assert (Hf : multidict_get "file" (files req) = Some file)
      by (unfold files; by rewrite Hd).
    destruct (decide (filename file = "")) as [Hn|Hn].
    { rewrite (process_document_no_selected_file _ _ _ _ _ Hk Hf Hn). discriminate. }
    destruct (read file) as [data|e] eqn:Hr.
    2:{ rewrite process_document_handler. simpl.
        rewrite (handler_checks_passed _ _ _ _ _ Hk Hf Hn).
        rewrite (try_statement_unbound env (filename file) _ _ (Raise e) s
                   (try_suite_read_raises env file e s Hr)).
        discriminate. }
    destruct (stage env (filename file) data (after_read file s)) as [[[]|e] c2] eqn:Hs.
    + destruct (handler_staged _ _ _ _ _ _ _ Hk Hf Hn Hr Hs) as (path & _ & -> & _).
      apply Hcaught. intros a Ha.
      destruct (collaborator_outcome _ _ _) as [md|]; [|discriminate].
      injection Ha as <-. by exists md.
    + destruct (handler_stage_raised _ _ _ _ _ _ _ _ Hk Hf Hn Hr Hs) as [-> _].
      apply Hcaught. discriminate.
Qed.

Lemma path_not_set_unreachable_witness :
  fst (process_document Sample.req no_faults Sample.s0)
  ≠ Return {| status := 500; mimetype := "application/json";
              body := Json [("error", "Internal error: Temp file path not set.")] |}.
Proof. apply (proj2 path_not_set_unreachable Sample.req no_faults Sample.s0). Defined.

(** C10.  The module global [converter] is assigned by the start-up
    code, once, and no request changes it: it is the same after one
    call of the handler, and after any sequence of calls, as before. *)
Theorem converter_reference_is_stable :
  (∀ constructed w s,
     startup constructed w = Return s →
     converter s = match constructed with Return c => Some c | Raise _ => None end) ∧
  (∀ req env s, converter (snd (process_document req env s)) = converter s) ∧
  (∀ reqs s, converter (snd (serve reqs s)) = converter s).
Proof.
  split; [|split].
  - intros [c|e] w s; unfold startup.
    + by intros [= <-].
    + destruct (isinstance e Exception); [by intros [= <-] | discriminate].
  - apply process_document_keeps_converter.
  - apply serve_keeps_converter.
Qed.

Lemma converter_reference_is_stable_witness :
  converter (snd (serve [(Sample.req, no_faults); (Sample.req_unreadable, Sample.disk_full)]
                    Sample.s0))
  = converter Sample.s0.
Proof.
  apply (proj2 (proj2 converter_reference_is_stable)
           [(Sample.req, no_faults); (Sample.req_unreadable, Sample.disk_full)] Sample.s0).
Defined.

(** * Further properties of the handler *)

(** ** How a call ends *)

Lemma caught_ends_as req s conv file data r :
  converter s = Some conv →
  multidict_get "file" (files req) = Some file →
  filename file ≠ "" →
  read file = Return data →
  (∀ a, r = Return a → ∃ md, a = markdown_response md) →
  ends_as req s (caught r).
Proof.
  intros Hk Hf Hn Hr Ha. destruct r as [a|e]; simpl.
  - destruct (Ha a eq_refl) as [md ->]. by eapply ends_converted.
  - destruct (isinstance e Exception) eqn:He.
    + by eapply ends_failed.
    + by eapply ends_interrupted.
Qed.

(** Every call of the handler ends in one of the seven ways of
    [ends_as]. *)
Lemma process_document_ends_as req env s :
  ends_as req s (fst (process_document req env s)).
Proof.
  destruct (converter s) as [conv|] eqn:Hk.
  2:{ rewrite (process_document_unavailable _ _ _ Hk). by constructor. }
  destruct (request_files req) as [d|e0] eqn:Hd.
  2:{ rewrite (process_document_unparsed _ _ _ _ _ Hk Hd). by eapply ends_unparsed. }
  destruct (multidict_get "file" d) as [file|] eqn:Hf'.
  2:{ rewrite (process_document_no_file_part _ _ _ _ _ Hk Hd Hf').
      by eapply ends_no_file_part. }
  assert (Hf : multidict_get "file" (files req) = Some file)
    by (unfold files; by rewrite Hd).
  destruct (decide (filename file = "")) as [Hn|Hn].
  { rewrite (process_document_no_selected_file _ _ _ _ _ Hk Hf Hn). by econstructor. }
  destruct (read file) as [data|e] eqn:Hr.
  2:{ rewrite process_document_handler. simpl.
      rewrite (handler_checks_passed _ _ _ _ _ Hk Hf Hn).
      rewrite (try_statement_unbound env (filename file) _ _ (Raise e) s
                 (try_suite_read_raises env file e s Hr)).
      by eapply ends_read_failed. }
  destruct (stage env (filename file) data (after_read file s)) as [[[]|e] c2] eqn:Hs.
  - destruct (handler_staged _ _ _ _ _ _ _ Hk Hf Hn Hr Hs) as (path & _ & -> & _).
    eapply caught_ends_as; try done. intros a Ha.
    destruct (collaborator_outcome _ _ _) as [md|]; [|discriminate].
    injection Ha as <-. by exists md.
  - destruct (handler_stage_raised _ _ _ _ _ _ _ _ Hk Hf Hn Hr Hs) as [-> _].
    eapply caught_ends_as; done.
Qed.

(** ** The disk *)

(** What one run of the staging block does to the disk: nothing, or one
    new file at a path that was free, built from one of the candidate
    names; the path is recorded exactly when the write did not fail. *)
Lemma stage_cases env name data fr s :
  (fs (world (snd (snd (stage env name data (fr, s))))) = fs (world s) ∧
   recorded_path (fst (snd (stage env name data (fr, s)))) = None) ∨
  (∃ path cand content,
     cand ∈ names (world s) ∧
     path = path_join (tmpdir (world s)) ("tmp" ++ cand ++ snd (splitext name)) ∧
     fs (world s) !! path = None ∧
     fs (world (snd (snd (stage env name data (fr, s)))))
       = <[path := content]> (fs (world s)) ∧
     ((write_fault env = None ∧ content = data ∧
       recorded_path (fst (snd (stage env name data (fr, s)))) = Some path) ∨
      (write_fault env ≠ None ∧
       recorded_path (fst (snd (stage env name data (fr, s)))) = None))).
Proof.
  unfold stage. unfold_monad.
  unfold NamedTemporaryFile, file_write, file_close, contents. unfold_monad.
  simpl. destruct (open_fault env); [by left|].
  destruct (mkstemp_inner _ _ _ _ _ _) as [[path|] rest] eqn:Hm; [|by left].
  apply mkstemp_inner_created in Hm as (Hfree & skipped & cand & Hcands & Hpath).
  simpl in Hfree, Hcands, Hpath.
  assert (Hin : cand ∈ names (world s)).
  { rewrite Hcands. apply elem_of_app. right. by left. }
  assert (Hne : path ≠ "") by (rewrite Hpath; apply temp_path_nonempty).
  right. simpl. destruct (write_fault env) as [[n e]|] eqn:Hw; simpl.
  - exists path, cand, (take n data). rewrite lookup_insert_eq. simpl.
    rewrite insert_insert_eq.
    destruct (close_fault env); simpl; repeat split; try done; by right.
  - exists path, cand, data. rewrite lookup_insert_eq. simpl.
    rewrite insert_insert_eq. unfold recorded_path.
    destruct path as [|a path']; [done|].
    destruct (close_fault env); simpl; repeat split; try done; by left.
Qed.

(** The read failed: only the log has changed. *)
Lemma read_failure_state req env s conv file e :
  converter s = Some conv →
  multidict_get "file" (files req) = Some file →
  filename file ≠ "" →
  read file = Raise e →
  same_but_log (world s) (world (snd (process_document req env s))).
Proof.
  intros Hk Hf Hn Hr. rewrite process_document_handler. simpl.
  rewrite (handler_checks_passed _ _ _ _ _ Hk Hf Hn).
  unfold try_finally, try_except. rewrite (try_suite_read_raises env file e s Hr).
  unfold on_entry. destruct (isinstance e Exception).
  - destruct (except_suite_runs (filename file) e fresh_frame s) as (w' & -> & H).
    by rewrite finally_suite_unbound.
  - by rewrite finally_suite_unbound.
Qed.

(** Once the upload has been read, the disk the handler leaves is what
    the [finally] clause makes of the disk the staging block left. *)
Lemma process_document_disk_after_stage req env s conv file data :
  converter s = Some conv →
  multidict_get "file" (files req) = Some file →
  filename file ≠ "" →
  read file = Return data →
  fs (world (snd (process_document req env s)))
  = cleanup_disk env
      (fst (snd (stage env (filename file) data (after_read file s))))
      (fs (world (snd (snd (stage env (filename file) data (after_read file s)))))).
Proof.
  intros Hk Hf Hn Hr.
  destruct (stage env (filename file) data (after_read file s)) as [[[]|e] c2] eqn:Hs.
  - by destruct (handler_staged _ _ _ _ _ _ _ Hk Hf Hn Hr Hs) as (path & _ & _ & -> & _).
  - by destruct (handler_stage_raised _ _ _ _ _ _ _ _ Hk Hf Hn Hr Hs) as [_ ->].
Qed.

(** What any call of the handler does to the disk: nothing, or it leaves
    one new file, at a temporary path that was free, and then the write
    or the removal has failed. *)
Lemma process_document_disk req env s :
  fs (world (snd (process_document req env s))) = fs (world s) ∨
  ∃ file path cand content,
    multidict_get "file" (files req) = Some file ∧
    cand ∈ names (world s) ∧
    path = path_join (tmpdir (world s))
             ("tmp" ++ cand ++ snd (splitext (filename file))) ∧
    fs (world s) !! path = None ∧
    fs (world (snd (process_document req env s)))
      = <[path := content]> (fs (world s)) ∧
    (write_fault env ≠ None ∨ remove_fault env ≠ None).
Proof.
  destruct (converter s) as [conv|] eqn:Hk.
  2:{ left. by rewrite (process_document_unavailable _ _ _ Hk). }
  destruct (request_files req) as [d|e0] eqn:Hd.
  2:{ left. by rewrite (process_document_unparsed _ _ _ _ _ Hk Hd). }
  destruct (multidict_get "file" d) as [file|] eqn:Hf'.
  2:{ left. by rewrite (process_document_no_file_part _ _ _ _ _ Hk Hd Hf'). }
  assert (Hf : multidict_get "file" (files req) = Some file)
    by (unfold files; by rewrite Hd).
  destruct (decide (filename file = "")) as [Hn|Hn].
  { left. by rewrite (process_document_no_selected_file _ _ _ _ _ Hk Hf Hn). }
  destruct (read file) as [data|e] eqn:Hr.
  2:{ left. by destruct (read_failure_state req env s conv file e Hk Hf Hn Hr). }
  rewrite (process_document_disk_after_stage _ _ _ _ _ _ Hk Hf Hn Hr).
  destruct (after_read_state file data s Hr) as (_ & _ & Hfs & Hnames & Htmp).
  destruct (after_read file s) as [fr1 s1]. simpl in *.
  destruct (stage_cases env (filename file) data fr1 s1)
    as [[Hsame Hrec] | (path & cand & content & Hin & Hpath & Hfree & Hdisk & Hcase)].
  - left. unfold cleanup_disk. rewrite Hrec, Hsame. done.
  - rewrite Hfs in Hfree, Hdisk. rewrite Hnames in Hin. rewrite Htmp in Hpath.
    unfold cleanup_disk.
    destruct Hcase as [(Hw & -> & Hrec) | (Hw & Hrec)]; rewrite Hrec, Hdisk.
    + destruct (remove_fault env) as [text|] eqn:Hrm.
      * right. exists file, path, cand, data. repeat split; try done. by right.
      * left. by apply delete_insert_id.
    + right. exists file, path, cand, content. repeat split; try done. by left.
Qed.

(** ** The response and the removal *)

(** The staging block does not look at what [os.remove] will do. *)
Lemma stage_same_faults env env' name data c :
  same_staging_faults env env' →
  stage env name data c = stage env' name data c.
Proof.
  intros (Ho & Hw & Hc). unfold stage, with_file, NamedTemporaryFile, file_write, file_close.
  by rewrite Ho, Hw, Hc.
Qed.

(** The [finally] clause when [os.remove] fails on the recorded path. *)
Lemma finally_suite_remove_fails env fr s path text content :
  recorded_path fr = Some path →
  fs (world s) !! path = Some content →
  remove_fault env = Some text →
  finally_suite env (fr, s)
  = (Return tt,
     (fr, {| converter := converter s;
             world := add_log
                        (Stdout ("Error removing temporary file " ++ path ++ ": " ++ text))
                        (world s) |})).
Proof.
  intros Hp Hd Hrm. unfold finally_suite, os_path_exists, os_remove.
  destruct fr as [[|v]]; [discriminate|]. unfold recorded_path in Hp. simpl in Hp.
  unfold_monad. simpl. rewrite Hp. simpl. rewrite Hd. simpl. rewrite Hrm. done.
Qed.

(** The state a call leaves is the one the [finally] clause leaves. *)
Lemma process_document_final_state req env s conv file :
  converter s = Some conv →
  multidict_get "file" (files req) = Some file →
  filename file ≠ "" →
  snd (process_document req env s)
  = snd (snd (finally_suite env
                (snd (try_except (try_suite env file (filename file)) Exception
                        (except_suite (filename file)) (on_entry s))))).
Proof.
  intros Hk Hf Hn. rewrite process_document_handler. simpl.
  rewrite (handler_checks_passed _ _ _ _ _ Hk Hf Hn). unfold try_finally.
  destruct (try_except _ _ _ _) as [r c']. simpl.
  by destruct (finally_suite env c') as [[[]|e] c''].
Qed.

(** The [except] clause changes neither frame nor disk. *)
Lemma try_except_config name (body : M Response) c r c' :
  body c = (r, c') →
  ∃ w', snd (try_except body Exception (except_suite name) c)
        = (fst c', {| converter := converter (snd c'); world := w' |})
      ∧ same_but_log (world (snd c')) w'.
Proof.
  intros Hb. unfold try_except. rewrite Hb. destruct c' as [fr s'].
  destruct r as [a|e].
  - exists (world s'). by destruct s'.
  - destruct (isinstance e Exception).
    + destruct (except_suite_runs name e fr s') as (w' & -> & H). by exists w'.
    + exists (world s'). by destruct s'.
Qed.

(** With a converter, no response carries status 503. *)
Lemma available_not_503 req env s resp :
  converter s ≠ None →
  fst (process_document req env s) = Return resp →
  status resp ≠ 503.
Proof.
  intros Hk Hr. pose proof (process_document_ends_as req env s) as H.
  rewrite Hr in H. inversion H; subst; try done; simpl; lia.
Qed.

Lemma serve_available reqs s :
  converter s ≠ None →
  Forall (λ r, ∀ resp, r = Return resp → status resp ≠ 503) (fst (serve reqs s)).
Proof.
  revert s. induction reqs as [|[req env] reqs IH]; intros s Hk; simpl; [constructor|].
  pose proof (available_not_503 req env s) as Hreq.
  pose proof (process_document_keeps_converter req env s) as Hkeep.
  destruct (process_document req env s) as [r s']. simpl in *.
  assert (Hk' : converter s' ≠ None) by congruence.
  specialize (IH s' Hk'). destruct (serve reqs s') as [rs s'']. simpl in *.
  constructor; [|done]. intros resp ->. by apply Hreq.
Qed.

(** ** [os.path.splitext] *)

Lemma string_app_empty_r (a : string) : a ++ "" = a.
Proof. induction a as [|ch a IH]; [done|]. rewrite string_app_cons. by rewrite IH. Qed.

Lemma contains_char_app ch (a b : string) :
  contains_char ch (a ++ b) = contains_char ch a || contains_char ch b.
Proof.
  induction a as [|x a IH]; [done|].
  rewrite string_app_cons. simpl. rewrite IH. by rewrite orb_assoc.
Qed.

Lemma contains_char_split ch (s : string) :
  contains_char ch s = true → ∃ a b, s = a ++ String ch b.
Proof.
  induction s as [|x s IH]; simpl; [discriminate|].
  destruct (Ascii.eqb_spec x ch) as [->|_]; simpl.
  - intros _. by exists "", s.
  - intros H. destruct (IH H) as (a & b & ->). by exists (String x a), b.
Qed.

(** [rfind] never answers less than what it starts from. *)
Lemma rfind_from_lower ch s i last :
  (last ≤ i)%Z → (last ≤ rfind_from ch s i last)%Z.
Proof.
  revert i last. induction s as [|a s IH]; intros i last Hl; simpl; [lia|].
  destruct (Ascii.eqb a ch).
  - specialize (IH (i + 1)%Z i). lia.
  - specialize (IH (i + 1)%Z last). lia.
Qed.

(** [rfind] answers its start value when the character does not occur,
    and otherwise the position of an occurrence after which there is no
    other. *)
Lemma rfind_from_spec ch s i last :
  (contains_char ch s = false ∧ rfind_from ch s i last = last) ∨
  (∃ pre post,
     s = pre ++ String ch post ∧ contains_char ch post = false ∧
     rfind_from ch s i last = (i + Z.of_nat (String.length pre))%Z).
Proof.
  revert i last. induction s as [|a s IH]; intros i last; simpl; [by left|].
  destruct (Ascii.eqb_spec a ch) as [->|Hne]; simpl.
  - right. destruct (IH (i + 1)%Z i) as [[Hno ->] | (pre & post & -> & Hno & ->)].
    + exists "", s. simpl. split; [done|]. split; [done|]. lia.
    + exists (String ch pre), post. rewrite string_app_cons. simpl.
      split; [done|]. split; [done|]. lia.
  - destruct (IH (i + 1)%Z last) as [[Hno ->] | (pre & post & -> & Hno & ->)].
    + by left.
    + right. exists (String a pre), post. rewrite string_app_cons. simpl.
      split; [done|]. split; [done|]. lia.
Qed.

(** No occurrence lies after the position [rfind] answers. *)
Lemma rfind_from_occurrence ch pre post i last :
  (last ≤ i)%Z →
  (i + Z.of_nat (String.length pre) ≤ rfind_from ch (pre ++ String ch post) i last)%Z.
Proof.
  revert i last. induction pre as [|a pre IH]; intros i last Hl.
  - simpl. rewrite Ascii.eqb_refl.
    pose proof (rfind_from_lower ch post (i + 1)%Z i). lia.
  - rewrite string_app_cons. simpl rfind_from. simpl String.length.
    destruct (Ascii.eqb a ch).
    + specialize (IH (i + 1)%Z i). lia.
    + specialize (IH (i + 1)%Z last). lia.
Qed.

Lemma substring_whole (x : string) : substring 0 (String.length x) x = x.
Proof. induction x as [|a x IH]; simpl; [done | by rewrite IH]. Qed.

Lemma slice_to_app (pre x : string) : slice_to (String.length pre) (pre ++ x) = pre.
Proof.
  unfold slice_to. induction pre as [|a pre IH].
  - by destruct x.
  - rewrite string_app_cons. simpl. by rewrite IH.
Qed.

Lemma substring_skip (pre x : string) m :
  substring (String.length pre) m (pre ++ x) = substring 0 m x.
Proof.
  induction pre as [|a pre IH]; [done|].
  rewrite string_app_cons. simpl. exact IH.
Qed.

Lemma slice_from_app (pre x : string) : slice_from (String.length pre) (pre ++ x) = x.
Proof.
  unfold slice_from. rewrite substring_skip, string_app_length.
  replace (String.length pre + String.length x - String.length pre)
    with (String.length x) by lia.
  apply substring_whole.
Qed.

Lemma splitext_scan_cases steps p filenameIndex dotIndex :
  splitext_scan steps p filenameIndex dotIndex = (p, "") ∨
  splitext_scan steps p filenameIndex dotIndex
  = (slice_to dotIndex p, slice_from dotIndex p).
Proof.
  revert filenameIndex. induction steps as [|n IH]; intros f; simpl; [by left|].
  destruct (f <? dotIndex)%nat; [|by left].
  destruct (char_is "." f p); simpl; [apply IH | by right].
Qed.

(** [splitext] either takes nothing off, or splits at the last dot; what
    it then splits off has no second dot and no separator. *)
Lemma splitext_cases p :
  splitext p = (p, "") ∨
  ∃ root rest,
    p = root ++ String "." rest ∧
    splitext p = (root, String "." rest) ∧
    contains_char "." rest = false ∧
    contains_char "/" rest = false.
Proof.
  unfold splitext, rfind.
  destruct (Z.ltb_spec (rfind_from "/" p 0 (-1)) (rfind_from "." p 0 (-1))) as [Hlt|_];
    [|by left].
  destruct (splitext_scan_cases (String.length p) p
              (Z.to_nat (rfind_from "/" p 0 (-1) + 1))
              (Z.to_nat (rfind_from "." p 0 (-1)))) as [-> | ->]; [by left|].
  right.
  destruct (rfind_from_spec "." p 0 (-1)) as [[_ Hdot] | (root & rest & Hp & Hno & Hdot)].
  { pose proof (rfind_from_lower "/" p 0 (-1)). lia. }
  exists root, rest. split; [done|]. rewrite Hdot.
  replace (Z.to_nat (0 + Z.of_nat (String.length root))) with (String.length root) by lia.
  split; [by rewrite Hp at 1 2; rewrite slice_to_app, slice_from_app|].
  split; [done|].
  destruct (contains_char "/" rest) eqn:Hsep; [|done].
  destruct (contains_char_split _ _ Hsep) as (a & b & ->).
  assert (Hp' : p = (root ++ String "." a) ++ String "/" b).
  { rewrite Hp. by rewrite string_app_assoc, string_app_cons. }
  pose proof (rfind_from_occurrence "/" (root ++ String "." a) b 0 (-1)) as Hocc.
  rewrite <- Hp' in Hocc. rewrite string_app_length in Hocc. simpl in Hocc. lia.
Qed.

(** ** Further properties *)

(** X1.  When neither the write to the staged file nor its removal
    fails, a call of the handler leaves the disk exactly as it found it,
    whichever way the call ends: early return, failed read, failed
    staging, an exception from the collaborator (caught or not), or
    success. *)
Theorem quiet_disk_is_restored req env s :
  write_fault env = None →
  remove_fault env = None →
  fs (world (snd (process_document req env s))) = fs (world s).
Proof.
  intros Hw Hrm.
  destruct (process_document_disk req env s)
    as [H | (file & path & cand & content & _ & _ & _ & _ & _ & [H|H])]; done.
Qed.

Lemma quiet_disk_is_restored_witness :
  fs (world (snd (process_document Sample.req no_faults Sample.s_failing)))
  = fs (world Sample.s_failing).
Proof.
  apply (quiet_disk_is_restored Sample.req no_faults Sample.s_failing); reflexivity.
Defined.

(** X2.  The handler never removes or changes a file that was on disk
    before the call, whatever fails during the call. *)
Theorem existing_files_untouched req env s path content :
  fs (world s) !! path = Some content →
  fs (world (snd (process_document req env s))) !! path = Some content.
Proof.
  intros Hpath.
  destruct (process_document_disk req env s)
    as [-> | (file & path' & cand & content' & _ & _ & _ & Hfree & -> & _)]; [done|].
  rewrite lookup_insert_ne; [done|]. intros ->. congruence.
Qed.

Lemma existing_files_untouched_witness :
  fs (world (snd (process_document Sample.req Sample.disk_full SampleDisk.s_busy)))
    !! "/tmp/keep.txt" = Some SampleDisk.kept.
Proof.
  apply (existing_files_untouched Sample.req Sample.disk_full SampleDisk.s_busy
           "/tmp/keep.txt" SampleDisk.kept).
  reflexivity.
Defined.

(** X3.  A file that is on disk after a call and was not there before
    is the call's own temporary file: its path is [os.path.join] of the
    temp directory and [tmp], one of the generator's candidate names and
    the extension of the uploaded file name; and it is there only
    because the write or the removal failed. *)
Theorem new_files_are_temporary req env s path :
  fs (world s) !! path = None →
  is_Some (fs (world (snd (process_document req env s))) !! path) →
  ∃ file cand,
    multidict_get "file" (files req) = Some file ∧
    cand ∈ names (world s) ∧
    path = path_join (tmpdir (world s))
             ("tmp" ++ cand ++ snd (splitext (filename file))) ∧
    (write_fault env ≠ None ∨ remove_fault env ≠ None).
Proof.
  intros Hfree Hnew.
  destruct (process_document_disk req env s)
    as [Heq | (file & path' & cand & content & Hf & Hin & Hpath & _ & Heq & Hfault)];
    rewrite Heq in Hnew.
  - rewrite Hfree in Hnew. by destruct Hnew.
  - destruct (decide (path' = path)) as [<-|Hne].
    + by exists file, cand.
    + rewrite lookup_insert_ne, Hfree in Hnew by done. by destruct Hnew.
Qed.

Lemma new_files_are_temporary_witness :
  ∃ file cand,
    multidict_get "file" (files Sample.req) = Some file ∧
    cand ∈ names (world Sample.s0) ∧
    "/tmp/tmpk3j_x0aq.pdf"
    = path_join (tmpdir (world Sample.s0))
        ("tmp" ++ cand ++ snd (splitext (filename file))) ∧
    (write_fault Sample.disk_full ≠ None ∨ remove_fault Sample.disk_full ≠ None).
Proof.
  apply (new_files_are_temporary Sample.req Sample.disk_full Sample.s0
           "/tmp/tmpk3j_x0aq.pdf").
  - reflexivity.
  - vm_compute. eexists. reflexivity.
Defined.

(** X4.  What the client is sent never depends on whether removing the
    staged file succeeds: two environments that differ only in what
    [os.remove] does give the same response, or the same exception. *)
Theorem response_ignores_removal req env env' s :
  same_staging_faults env env' →
  fst (process_document req env s) = fst (process_document req env' s).
Proof.
  intros Hsame.
  destruct (converter s) as [conv|] eqn:Hk.
  2:{ by rewrite !(process_document_unavailable _ _ _ Hk). }
  destruct (request_files req) as [d|e0] eqn:Hd.
  2:{ by rewrite !(process_document_unparsed _ _ _ _ _ Hk Hd). }
  destruct (multidict_get "file" d) as [file|] eqn:Hf'.
  2:{ by rewrite !(process_document_no_file_part _ _ _ _ _ Hk Hd Hf'). }
  assert (Hf : multidict_get "file" (files req) = Some file)
    by (unfold files; by rewrite Hd).
  destruct (decide (filename file = "")) as [Hn|Hn].
  { by rewrite !(process_document_no_selected_file _ _ _ _ _ Hk Hf Hn). }
  destruct (read file) as [data|e] eqn:Hr.
  2:{ rewrite !process_document_handler. simpl.
      rewrite !(handler_checks_passed _ _ _ _ _ Hk Hf Hn).
      by rewrite !(try_statement_unbound _ (filename file) _ _ (Raise e) s
                     (try_suite_read_raises _ file e s Hr)). }
  pose proof (stage_same_faults env env' (filename file) data (after_read file s) Hsame)
    as Hstage.
  destruct (stage env (filename file) data (after_read file s)) as [[[]|e] c2] eqn:Hs;
    symmetry in Hstage.
  - destruct (handler_staged _ _ _ _ _ _ _ Hk Hf Hn Hr Hs) as (path & Hp & -> & _).
    destruct (handler_staged _ _ _ _ _ _ _ Hk Hf Hn Hr Hstage) as (path' & Hp' & -> & _).
    rewrite Hp in Hp'. by injection Hp' as <-.
  - destruct (handler_stage_raised _ _ _ _ _ _ _ _ Hk Hf Hn Hr Hs) as [-> _].
    by destruct (handler_stage_raised _ _ _ _ _ _ _ _ Hk Hf Hn Hr Hstage) as [-> _].
Qed.

Lemma response_ignores_removal_witness :
  fst (process_document Sample.req no_faults Sample.s0)
  = fst (process_document Sample.req
           (removal_fails "[Errno 13] Permission denied") Sample.s0).
Proof.
  apply (response_ignores_removal Sample.req no_faults
           (removal_fails "[Errno 13] Permission denied") Sample.s0).
  repeat split.
Defined.

(** X5.  When the staged file cannot be removed, the file stays on disk
    with the uploaded bytes, and the last thing the call prints is
    "Error removing temporary file <path>: <the error's text>". *)
Theorem failed_removal_is_logged req env s conv file data c2 path text :
  converter s = Some conv →
  multidict_get "file" (files req) = Some file →
  filename file ≠ "" →
  read file = Return data →
  stage env (filename file) data (after_read file s) = (Return tt, c2) →
  recorded_path (fst c2) = Some path →
  remove_fault env = Some text →
  fs (world (snd (process_document req env s))) !! path = Some data ∧
  last (log (world (snd (process_document req env s))))
  = Some (Stdout ("Error removing temporary file " ++ path ++ ": " ++ text)).
Proof.
  intros Hk Hf Hn Hr Hs Hp Hrm.
  rewrite (process_document_final_state _ _ _ _ _ Hk Hf Hn).
  destruct (try_suite_staged _ _ _ _ _ _ Hr Hk Hs)
    as (path' & w1 & Hp' & Hne & Ht & Hfs1 & _).
  assert (path' = path) as ->.
  { unfold recorded_path in Hp. rewrite Hp' in Hp.
    by apply truthy_str_Some in Hp as [[= ->] _]. }
  destruct (try_except_config (filename file) _ _ _ _ Ht) as (w2 & -> & Hfs2 & _).
  cbn [fst snd converter world] in *.
  assert (Hdisk : fs w2 !! path = Some data).
  { rewrite Hfs2, Hfs1. destruct (after_read file s) as [fr1 s1].
    destruct (stage_returns _ _ _ _ _ _ Hs) as (p & rest & _ & Hp2 & _ & -> & _).
    rewrite Hp' in Hp2. injection Hp2 as <-. apply lookup_insert_eq. }
  rewrite (finally_suite_remove_fails env (fst c2) {| converter := converter (snd c2); world := w2 |}
             path text data Hp Hdisk Hrm).
  simpl. split; [done|]. apply last_snoc.
Qed.

Lemma failed_removal_is_logged_witness :
  fs (world (snd (process_document Sample.req
                    (removal_fails "[Errno 13] Permission denied") Sample.s0)))
    !! "/tmp/tmpk3j_x0aq.pdf" = Some Sample.pdf_bytes ∧
  last (log (world (snd (process_document Sample.req
                           (removal_fails "[Errno 13] Permission denied") Sample.s0))))
  = Some (Stdout ("Error removing temporary file " ++ "/tmp/tmpk3j_x0aq.pdf" ++ ": "
                  ++ "[Errno 13] Permission denied")).
Proof.
  apply (failed_removal_is_logged Sample.req
           (removal_fails "[Errno 13] Permission denied") Sample.s0 Sample.conv
           Sample.upload Sample.pdf_bytes
           (snd (stage (removal_fails "[Errno 13] Permission denied") "report.pdf"
                   Sample.pdf_bytes (after_read Sample.upload Sample.s0))));
    [reflexivity | reflexivity | discriminate | reflexivity
    | vm_compute; reflexivity | vm_compute; reflexivity | reflexivity].
Defined.

(** X6.  An exception that leaves the handler is the one building
    [request.files] raised (line 35, before the [try] statement), or it
    is no instance of [Exception], or it is the [UnboundLocalError] of
    the [finally] clause, and then reading the upload had raised.  No
    instance of [Exception] raised by staging or by the collaborator
    leaves the handler. *)
Theorem what_escapes req env s e :
  fst (process_document req env s) = Raise e →
  request_files req = Raise e ∨
  isinstance e Exception = false ∨
  (e = unbound_temp_file_path ∧
   ∃ file e0, multidict_get "file" (files req) = Some file ∧ read file = Raise e0).
Proof.
  intros Hr. pose proof (process_document_ends_as req env s) as H.
  rewrite Hr in H. inversion H; subst.
  - by left.
  - right. right. split; [done|]. by eexists _, _.
  - right. by left.
Qed.

Lemma what_escapes_witness :
  request_files Sample.req_unreadable = Raise unbound_temp_file_path ∨
  isinstance unbound_temp_file_path Exception = false ∨
  (unbound_temp_file_path = unbound_temp_file_path ∧
   ∃ file e0, multidict_get "file" (files Sample.req_unreadable) = Some file ∧
              read file = Raise e0).
Proof.
  apply (what_escapes Sample.req_unreadable no_faults Sample.s0 unbound_temp_file_path).
  vm_compute. reflexivity.
Defined.

(** X7.  A response has status 503 exactly when the converter was not
    initialised, and status 400 exactly when the converter is there and
    the request has no [file] field or an empty file name. *)
Theorem status_tells_the_check req env s resp :
  fst (process_document req env s) = Return resp →
  (status resp = 503 ↔ converter s = None) ∧
  (status resp = 400 ↔
     converter s ≠ None ∧
     (multidict_get "file" (files req) = None ∨
      ∃ file, multidict_get "file" (files req) = Some file ∧ filename file = "")).
Proof.
  intros Hr. pose proof (process_document_ends_as req env s) as H.
  rewrite Hr in H. inversion H; subst; simpl.
  - split; [by split|]. split; [intros ?; lia|]. by intros [Hc _].
  - split; [split; [intros ?; lia | congruence]|].
    split; [|done]. intros _. split; [congruence|]. left.
    unfold files.
    by match goal with Hd : request_files req = Return _ |- _ => rewrite Hd end.
  - split; [split; [intros ?; lia | congruence]|].
    split; [|done]. intros _. split; [congruence|]. right. by eexists.
  - split; [split; [intros ?; lia | congruence]|].
    split; [intros ?; lia|]. intros (_ & [? | (f & ? & ?)]); congruence.
  - split; [split; [intros ?; lia | congruence]|].
    split; [intros ?; lia|]. intros (_ & [? | (f & ? & ?)]); congruence.
Qed.

Lemma status_tells_the_check_witness :
  (status no_selected_file_response = 503 ↔ converter Sample.s0 = None) ∧
  (status no_selected_file_response = 400 ↔
     converter Sample.s0 ≠ None ∧
     (multidict_get "file" (files Sample.req_unnamed) = None ∨
      ∃ file, multidict_get "file" (files Sample.req_unnamed) = Some file ∧
              filename file = "")).
Proof.
  apply (status_tells_the_check Sample.req_unnamed no_faults Sample.s0
           no_selected_file_response).
  reflexivity.
Defined.

(** X8.  Every response is of one of two shapes: status 200 with
    content type [text/markdown] and a text body, or status 400, 500 or
    503 with content type [application/json] and a JSON object that has
    an [error] key. *)
Theorem response_shapes req env s resp :
  fst (process_document req env s) = Return resp →
  (status resp = 200 ∧ mimetype resp = "text/markdown" ∧
   ∃ markdown_output, body resp = Text markdown_output) ∨
  ((status resp = 400 ∨ status resp = 500 ∨ status resp = 503) ∧
   mimetype resp = "application/json" ∧
   ∃ obj message, body resp = Json obj ∧ json_get "error" obj = Some message).
Proof.
  intros Hr. pose proof (process_document_ends_as req env s) as H.
  rewrite Hr in H. inversion H; subst; simpl.
  - right. split; [by right; right|]. split; [done|]. by eexists _, _.
  - right. split; [by left|]. split; [done|]. by eexists _, _.
  - right. split; [by left|]. split; [done|]. by eexists _, _.
  - right. split; [by right; left|]. split; [done|]. by eexists _, _.
  - left. split; [done|]. split; [done|]. by eexists.
Qed.

Lemma response_shapes_witness :
  (status (failure_response Sample.conversion_error) = 200 ∧
   mimetype (failure_response Sample.conversion_error) = "text/markdown" ∧
   ∃ markdown_output, body (failure_response Sample.conversion_error) = Text markdown_output) ∨
  ((status (failure_response Sample.conversion_error) = 400 ∨
    status (failure_response Sample.conversion_error) = 500 ∨
    status (failure_response Sample.conversion_error) = 503) ∧
   mimetype (failure_response Sample.conversion_error) = "application/json" ∧
   ∃ obj message,
     body (failure_response Sample.conversion_error) = Json obj ∧
     json_get "error" obj = Some message).
Proof.
  apply (response_shapes Sample.req no_faults Sample.s_failing
           (failure_response Sample.conversion_error)).
  vm_compute. reflexivity.
Defined.

(** X9.  When the converter was constructed at start-up, the process
    starts, and no request of any sequence served afterwards is answered
    503. *)
Theorem available_after_startup conv w reqs :
  ∃ s, startup (Return conv) w = Return s ∧
       converter s = Some conv ∧
       Forall (λ r, ∀ resp, r = Return resp → status resp ≠ 503) (fst (serve reqs s)).
Proof.
  eexists. split; [reflexivity|]. split; [reflexivity|].
  by apply serve_available.
Qed.

(** X10.  The two parts [os.path.splitext] gives for the uploaded file
    name, put together again, are the file name. *)
Theorem splitext_parts_make_the_name p :
  fst (splitext p) ++ snd (splitext p) = p.
Proof.
  destruct (splitext_cases p) as [-> | (root & rest & Hp & -> & _)]; simpl.
  - apply string_app_empty_r.
  - by rewrite Hp.
Qed.

(** X11.  The suffix given to the staged file, the second part of
    [os.path.splitext], is empty or a dot followed by characters that
    are neither a dot nor a path separator. *)
Theorem staged_suffix_shape p :
  snd (splitext p) = "" ∨
  ∃ rest, snd (splitext p) = String "." rest ∧
          contains_char "." rest = false ∧
          contains_char "/" rest = false.
Proof.
  destruct (splitext_cases p) as [-> | (root & rest & _ & -> & Hdot & Hsep)]; simpl.
  - by left.
  - right. by exists rest.
Qed.

(** X12.  The name the client gives its file cannot move the staged
    file out of the temp directory: the staged path is the temp
    directory (with its separator) followed by a name without a path
    separator, as long as the generator's candidate names have none. *)
Theorem staged_file_stays_in_tmpdir env name data fr s c' path :
  Forall (λ cand, contains_char "/" cand = false) (names (world s)) →
  stage env name data (fr, s) = (Return tt, c') →
  recorded_path (fst c') = Some path →
  ∃ leaf, path = dir_prefix (tmpdir (world s)) ++ leaf ∧
          contains_char "/" leaf = false.
Proof.
  intros Hnames Hs Hp.
  destruct (stage_returns _ _ _ _ _ _ Hs) as (path' & rest & Hm & Hp' & _).
  assert (path' = path) as ->.
  { unfold recorded_path in Hp. rewrite Hp' in Hp.
    by apply truthy_str_Some in Hp as [[= ->] _]. }
  apply mkstemp_inner_created in Hm as (_ & skipped & cand & Hcands & ->).
  exists ("tmp" ++ cand ++ snd (splitext name)).
  split; [by apply path_join_relative|].
  rewrite !contains_char_app.
  assert (Hcand : contains_char "/" cand = false).
  { rewrite Hcands in Hnames. apply Forall_app in Hnames as [_ Hnames].
    by apply Forall_cons in Hnames as [? _]. }
  rewrite Hcand.
  destruct (splitext_cases name) as [-> | (root & rest' & _ & -> & _ & Hsep)]; simpl.
  - done.
  - by rewrite Hsep.
Qed.

Lemma staged_file_stays_in_tmpdir_witness :
  ∃ leaf, "/tmp/tmpk3j_x0aq.gz" = dir_prefix (tmpdir (world Sample.s0)) ++ leaf ∧
          contains_char "/" leaf = false.
Proof.
  apply (staged_file_stays_in_tmpdir no_faults "../../etc/x.tar.gz" Sample.pdf_bytes
           fresh_frame Sample.s0
           (snd (stage no_faults "../../etc/x.tar.gz" Sample.pdf_bytes
                   (fresh_frame, Sample.s0)))).
  - repeat constructor.
  - vm_compute. reflexivity.
  - vm_compute. reflexivity.
Defined.
